(** * Autosalon storefront: the cart, its totals, promo codes and the
      financing calculator

    A shallow embedding of

    - [src/hooks/useCart.ts] (second document, the API client): the
      [Car] and [CartItem] interfaces and the cart methods of
      [class ApiClient], which keep the cart under the [localStorage]
      key ['cart'];
    - the cart page ([const Cart = () => ...]): [calculateSelectedTotal],
      [calculateMonthlyPayment], [handleApplyPromoCode] and the derived
      [selectedTotal], [discountAmount], [finalTotal];
    - [src/pages/CarDetail.tsx]: its own [calculateMonthlyPayment],
      [loadCar] and [handleAddToCart];
    - the [useCart] hook of [src/hooks/useCart.ts] (first document);
    - the other handlers of the cart page: selection, quantity, financing
      and notes updates, removal of the selection, checkout;
    - the catalog page ([const Catalog = () => ...]): favorites, the compare
      list and [handleAddToCart].

    Modelling decisions, each stated where it is made:

    - a JavaScript [number] is an exact rational ([Q]).  Rounding, NaN and
      the infinities of IEEE doubles are outside the model; a division whose
      divisor is zero has no finite value and yields [None];
    - the text stored under ['cart'] is abstracted by what the code can
      observe of it: whether it is empty, and what [JSON.parse] makes of it;
    - [async] methods run to completion one after the other (one UI thread);
      a rejected promise is a thrown exception.  The one place where the
      code starts several calls at once, [handleRemoveSelected], is modelled
      by its reads and writes in the order they happen;
    - the catalog service, the clock and nothing else form the [World] a
      method call runs in; every call receives its own. *)

From Stdlib Require Import List String Ascii Bool Arith ZArith NArith QArith Qpower.
From Stdlib Require Import DecimalString Lia Lqa.
Import ListNotations.

Local Open Scope string_scope.
Local Open Scope Q_scope.

(** ** Numbers *)

(** [number]: finite JavaScript numbers, without rounding. *)
Abbreviation number := Q (only parsing).

(** [x || 0] on a number: [0] is falsy, every other finite number is kept. *)
Definition or_zero (x : number) : number :=
  if Qeq_bool x 0 then 0 else x.

(** [a / b].  JavaScript gives [Infinity], [-Infinity] or [NaN] when [b] is
    zero; none of them is a finite number, hence [None]. *)
Definition div (a b : number) : option number :=
  if Qeq_bool b 0 then None else Some (a / b).

(** [Math.pow(b, e)] for a whole exponent.  [Math.pow(0, e)] with [e < 0] is
    [Infinity]. *)
Definition Math_pow (b : number) (e : Z) : option number :=
  if Qeq_bool b 0 && (e <? 0)%Z then None else Some (b ^ e).


(** ** Data model ([export interface Car], [export interface CartItem]) *)

Module Car.
Record t : Type := {
  _id : string;
  brand : string;
  model : string;
  year : number;
  price : number;
  mileage : number;
  fuelType : string;
  transmission : string;
  bodyType : string;
  engineVolume : number;
  power : number;
  color : string;
  vin : string;
  status : string;
  images : list string;
  features : list string;
  description : string;
  isNew : bool;
  isHit : bool;
  createdAt : string;
  updatedAt : string
}.
End Car.

Module Financing.
(** ['cash' | 'credit' | 'leasing'] *)
Inductive kind : Type := cash | credit | leasing.

Record t : Type := {
  type : kind;
  downPayment : option number;
  loanTerm : option number;
  monthlyPayment : option number
}.
End Financing.

Module CartItem.
(** An optional property ([car?], [notes?], [financing?]) is [None] when
    the key is missing or holds [undefined]: [JSON.stringify] drops both,
    and [item.car?.price] reads both alike. *)
Record t : Type := {
  _id : string;
  userId : string;
  carId : string;
  car : option Car.t;
  quantity : number;
  addedAt : string;
  notes : option string;
  financing : option Financing.t
}.
End CartItem.

(** [Partial<CartItem>]: every key may be missing ([None]).  For the three
    optional properties a key that is present may hold [undefined]
    ([Some None]), as in [updateCartItem(itemId, { financing })] with an
    undefined [financing]. *)
Module Partial.
Record t : Type := {
  _id : option string;
  userId : option string;
  carId : option string;
  car : option (option Car.t);
  quantity : option number;
  addedAt : option string;
  notes : option (option string);
  financing : option (option Financing.t)
}.

(** The object literal [{}]. *)
Definition empty : t :=
  {| _id := None; userId := None; carId := None; car := None;
     quantity := None; addedAt := None; notes := None; financing := None |}.
End Partial.

(** A key of the right operand of a spread wins when it is present. *)
Definition pick {A : Type} (base : A) (over : option A) : A :=
  match over with
  | Some v => v
  | None => base
  end.

(** [{ ...base, ...over }] *)
Definition spread (base : CartItem.t) (over : Partial.t) : CartItem.t :=
  {| CartItem._id := pick (CartItem._id base) (Partial._id over);
     CartItem.userId := pick (CartItem.userId base) (Partial.userId over);
     CartItem.carId := pick (CartItem.carId base) (Partial.carId over);
     CartItem.car := pick (CartItem.car base) (Partial.car over);
     CartItem.quantity := pick (CartItem.quantity base) (Partial.quantity over);
     CartItem.addedAt := pick (CartItem.addedAt base) (Partial.addedAt over);
     CartItem.notes := pick (CartItem.notes base) (Partial.notes over);
     CartItem.financing := pick (CartItem.financing base) (Partial.financing over) |}.

(** [{ ...base, ...options }] where [options?] may be [undefined]:
    spreading [undefined] adds no key. *)
Definition spread_optional (base : CartItem.t) (options : option Partial.t) : CartItem.t :=
  match options with
  | Some over => spread base over
  | None => base
  end.

(** [{ ...item, car: data }] and the assignment [newItem.car = data]. *)
Definition with_car (item : CartItem.t) (data : Car.t) : CartItem.t :=
  {| CartItem._id := CartItem._id item;
     CartItem.userId := CartItem.userId item;
     CartItem.carId := CartItem.carId item;
     CartItem.car := Some data;
     CartItem.quantity := CartItem.quantity item;
     CartItem.addedAt := CartItem.addedAt item;
     CartItem.notes := CartItem.notes item;
     CartItem.financing := CartItem.financing item |}.

(** ** Exceptions and the storage *)

Inductive exn : Type :=
| SyntaxError                 (* thrown by [JSON.parse] *)
| Error (message : string).   (* [throw new Error(message)] *)

(** The duplicate-item condition of [addToCart], whose message reads
    "this car is already in the cart". *)
Definition DuplicateItem : exn := Error "Этот автомобиль уже добавлен в корзину".

(** The missing-item condition of [updateCartItem], "cart item not found". *)
Definition ItemNotFound : exn := Error "Элемент корзины не найден".

(** The text held under the key ['cart'], as far as the code can tell texts
    apart.  The annotation [const cartItems: CartItem[] = JSON.parse(items)]
    trusts every text that parses to be an array of cart items; so does the
    model. *)
Inductive CartText : Type :=
| Serialized (items : list CartItem.t)  (* the text [JSON.stringify(items)] *)
| Blank                                 (* the empty string *)
| Malformed.                            (* a non-empty text that is not JSON *)

(** [localStorage], restricted to the key ['cart']; [None] is [null]. *)
Definition localStorage : Type := option CartText.

Definition JSON_stringify (items : list CartItem.t) : CartText := Serialized items.

Definition JSON_parse (text : CartText) : exn + list CartItem.t :=
  match text with
  | Serialized items => inr items
  | Blank => inl SyntaxError
  | Malformed => inl SyntaxError
  end.

(** [!items] on [string | null]: [null] and the empty string are falsy. *)
Definition falsy (items : option CartText) : bool :=
  match items with
  | None => true
  | Some Blank => true
  | Some _ => false
  end.

(** ** A method call: it reads and writes the storage and returns or throws *)

Inductive outcome (A : Type) : Type :=
| Returned (a : A)
| Thrown (e : exn).
Arguments Returned {A} a.
Arguments Thrown {A} e.

Definition M (A : Type) : Type := localStorage -> outcome A * localStorage.

Definition ret {A : Type} (a : A) : M A := fun ls => (Returned a, ls).

Definition throw {A : Type} (e : exn) : M A := fun ls => (Thrown e, ls).

Definition bind {A B : Type} (m : M A) (k : A -> M B) : M B :=
  fun ls =>
    match m ls with
    | (Returned a, ls') => k a ls'
    | (Thrown e, ls') => (Thrown e, ls')
    end.

Declare Scope cart_scope.
Delimit Scope cart_scope with cart.
Notation "x <- m ;; k" := (bind m (fun x => k))
  (at level 61, m at next level, right associativity) : cart_scope.
Notation "m ;;; k" := (bind m (fun _ => k))
  (at level 61, right associativity) : cart_scope.

(** [localStorage.getItem('cart')] *)
Definition getItem : M (option CartText) := fun ls => (Returned ls, ls).

(** [localStorage.setItem('cart', text)] *)
Definition setItem (text : CartText) : M unit := fun _ => (Returned tt, Some text).

(** [localStorage.removeItem('cart')] *)
Definition removeItem : M unit := fun _ => (Returned tt, None).

(** What a call leaves in the storage, and what it answers. *)
Definition stored_after {A : Type} (m : M A) (ls : localStorage) : localStorage := snd (m ls).
Definition answer {A : Type} (m : M A) (ls : localStorage) : outcome A := fst (m ls).

(** ** The world around a call *)

Record World : Type := {
  (** [GET /cars/:id]: [Some data] is [carResponse.data]; [None] is a
      rejected request (unreachable service, non-2xx answer). *)
  catalog : string -> option Car.t;
  (** [Date.now()], milliseconds since the epoch. *)
  Date_now : N;
  (** [new Date().toISOString()] *)
  Date_toISOString : string
}.

(** [n.toString()] for a non-negative whole [n]. *)
Definition toString (n : N) : string := NilEmpty.string_of_uint (N.to_uint n).

(** ** [class ApiClient]: the cart methods *)

Module ApiClient.

Local Open Scope cart_scope.

(** [async getCarById(id)], as its callers see it: the data of the answer,
    or a rejection they catch. *)
Definition getCarById (w : World) (id : string) : option Car.t := catalog w id.

(** The callback of [cartItems.map] in [getCartItems]:
    [try { return { ...item, car: carResponse.data } } catch { return item }]. *)
Definition attachCar (w : World) (item : CartItem.t) : CartItem.t :=
  match getCarById w (CartItem.carId item) with
  | Some data => with_car item data
  | None => item
  end.

(** The initial read of [getCartItems]:
    [const items = localStorage.getItem('cart'); if (!items) return [];
     const cartItems: CartItem[] = JSON.parse(items);] *)
Definition readCart : M (list CartItem.t) :=
  items <- getItem ;;
  if falsy items then ret []
  else match items with
       | Some text =>
           match JSON_parse text with
           | inr cartItems => ret cartItems
           | inl e => throw e
           end
       | None => ret []
       end.

(** [async getCartItems()]: the initial read, then one catalog request per
    item ([Promise.all] keeps the order of the array; mapping over the empty
    array of the early return gives the empty array). *)
Definition getCartItems (w : World) : M (list CartItem.t) :=
  cartItems <- readCart ;;
  ret (map (attachCar w) cartItems).

(** [async addToCart(carId, options?)] *)
Definition addToCart (w : World) (carId : string) (options : option Partial.t)
  : M CartItem.t :=
  cartItems <- getCartItems w ;;
  let existingItem := find (fun item => CartItem.carId item =? carId)%string cartItems in
  match existingItem with
  | Some _ => throw DuplicateItem
  | None =>
      let newItem :=
        spread_optional
          {| CartItem._id := toString (Date_now w);
             CartItem.userId := "guest";
             CartItem.carId := carId;
             CartItem.car := None;
             CartItem.quantity := 1;
             CartItem.addedAt := Date_toISOString w;
             CartItem.notes := None;
             CartItem.financing := None |}
          options in
      let updatedCart := (cartItems ++ [newItem])%list in
      setItem (JSON_stringify updatedCart) ;;;
      ret (match getCarById w carId with
           | Some data => with_car newItem data
           | None => newItem
           end)
  end.

(** [array.findIndex(p)]; [None] is [-1]. *)
Fixpoint findIndex {A : Type} (p : A -> bool) (l : list A) : option nat :=
  match l with
  | [] => None
  | x :: rest => if p x then Some 0%nat else option_map S (findIndex p rest)
  end.

(** [array[i] = v] for an index inside the array. *)
Fixpoint assign {A : Type} (l : list A) (i : nat) (v : A) : list A :=
  match l, i with
  | [], _ => []
  | _ :: rest, O => v :: rest
  | x :: rest, S j => x :: assign rest j v
  end.

(** [async updateCartItem(itemId, updates)].  [findIndex] answers positions
    inside the array only ([findIndex_inside] below), so the read
    [cartItems[itemIndex]] always finds an item. *)
Definition updateCartItem (w : World) (itemId : string) (updates : Partial.t)
  : M CartItem.t :=
  cartItems <- getCartItems w ;;
  match findIndex (fun item => CartItem._id item =? itemId)%string cartItems with
  | None => throw ItemNotFound
  | Some itemIndex =>
      match nth_error cartItems itemIndex with
      | Some item =>
          let updatedItem := spread item updates in
          setItem (JSON_stringify (assign cartItems itemIndex updatedItem)) ;;;
          ret updatedItem
      | None => throw ItemNotFound
      end
  end.

(** [async removeFromCart(itemId)] *)
Definition removeFromCart (w : World) (itemId : string) : M unit :=
  cartItems <- getCartItems w ;;
  let filteredItems :=
    filter (fun item => negb (CartItem._id item =? itemId)%string) cartItems in
  setItem (JSON_stringify filteredItems).

(** [async clearCart()] *)
Definition clearCart : M unit := removeItem.

(** [item.car?.price || 0] *)
Definition priceOrZero (item : CartItem.t) : number :=
  match CartItem.car item with
  | Some data => or_zero (Car.price data)
  | None => 0
  end.

(** [async getCartTotal()] *)
Definition getCartTotal (w : World) : M number :=
  cartItems <- getCartItems w ;;
  ret (fold_left (fun total item => total + priceOrZero item * CartItem.quantity item)
         cartItems 0).

End ApiClient.

(** ** The cart page ([const Cart = () => ...]) *)

Module Cart.

(** The two notifications of [handleApplyPromoCode]. *)
Inductive toast : Type :=
| PromoApplied (discount : number)   (* title "promo code applied" *)
| PromoRejected.                     (* title "wrong promo code", destructive *)

(** The part of the component state the totals and the promo code use.
    [cartItems] comes from the [useCart] hook; [selectedItems] is a
    [Set<string>] of item identifiers. *)
Record State : Type := {
  cartItems : list CartItem.t;
  selectedItems : list string;
  promoCode : string;
  promoDiscount : number;
  toasts : list toast
}.

(** The state once the page shows [items]: [useState('')], [useState(0)],
    and the effect on [cartItems] has selected every item. *)
Definition initial (items : list CartItem.t) : State :=
  {| cartItems := items;
     selectedItems := map CartItem._id items;
     promoCode := "";
     promoDiscount := 0;
     toasts := [] |}.

(** [selectedItems.has(id)] *)
Definition has (selected : list string) (id : string) : bool :=
  existsb (String.eqb id) selected.

(** [calculateSelectedTotal()] *)
Definition calculateSelectedTotal (st : State) : number :=
  fold_left
    (fun sum item => sum + ApiClient.priceOrZero item * CartItem.quantity item)
    (filter (fun item => has (selectedItems st) (CartItem._id item)) (cartItems st))
    0.

(** [calculateMonthlyPayment(price, downPayment, months, rate)].  [months]
    is a whole number of months: the page passes [parseInt] of a slider or
    [item.financing.loanTerm || 36]. *)
Definition calculateMonthlyPayment (price downPayment : number) (months : Z) (rate : number)
  : option number :=
  let loanAmount := price - downPayment in
  let monthlyRate := rate / 100 / 12 in
  if Qeq_bool monthlyRate 0 then div loanAmount (inject_Z months)
  else
    match Math_pow (1 + monthlyRate) months with
    | Some p => div (loanAmount * (monthlyRate * p)) (p - 1)
    | None => None
    end.

(** The object literal [validCodes]. *)
Definition validCodes : list (string * number) :=
  [("SAVE10", 0.1); ("FIRST15", 0.15); ("PREMIUM20", 0.2)].

(** [validCodes[code]]; [None] is [undefined].  [promoCode] only ever holds
    upper-cased input ([setPromoCode(e.target.value.toUpperCase())]), which
    names no inherited member of the object. *)
Fixpoint lookup (code : string) (table : list (string * number)) : option number :=
  match table with
  | [] => None
  | (key, discount) :: rest => if (key =? code)%string then Some discount else lookup code rest
  end.

(** [setPromoCode(code)] *)
Definition setPromoCode (code : string) (st : State) : State :=
  {| cartItems := cartItems st;
     selectedItems := selectedItems st;
     promoCode := code;
     promoDiscount := promoDiscount st;
     toasts := toasts st |}.

(** [handleApplyPromoCode()]; [if (discount)] rejects [undefined] and [0]. *)
Definition handleApplyPromoCode (st : State) : State :=
  match lookup (promoCode st) validCodes with
  | Some discount =>
      if Qeq_bool discount 0 then
        {| cartItems := cartItems st;
           selectedItems := selectedItems st;
           promoCode := promoCode st;
           promoDiscount := promoDiscount st;
           toasts := (toasts st ++ [PromoRejected])%list |}
      else
        {| cartItems := cartItems st;
           selectedItems := selectedItems st;
           promoCode := promoCode st;
           promoDiscount := discount;
           toasts := (toasts st ++ [PromoApplied discount])%list |}
  | None =>
      {| cartItems := cartItems st;
         selectedItems := selectedItems st;
         promoCode := promoCode st;
         promoDiscount := promoDiscount st;
         toasts := (toasts st ++ [PromoRejected])%list |}
  end.

(** [const selectedTotal = calculateSelectedTotal();] *)
Definition selectedTotal (st : State) : number := calculateSelectedTotal st.

(** [const discountAmount = selectedTotal * promoDiscount;] *)
Definition discountAmount (st : State) : number := selectedTotal st * promoDiscount st.

(** [const finalTotal = selectedTotal - discountAmount;] *)
Definition finalTotal (st : State) : number := selectedTotal st - discountAmount st.

End Cart.

(** ** The product page ([src/pages/CarDetail.tsx]) *)

Module CarDetail.

(** [calculateMonthlyPayment(price, downPayment = 0, months = 36)]: the rate
    is fixed at 12.5% a year and there is no branch for a zero rate.  A
    missing argument is [None]. *)
Definition calculateMonthlyPayment (price : number) (downPayment : option number)
  (months : option Z) : option number :=
  let downPayment := pick 0 downPayment in
  let months := pick 36%Z months in
  let loanAmount := price - downPayment in
  let monthlyRate := 0.125 / 12 in
  match Math_pow (1 + monthlyRate) months with
  | Some p => div (loanAmount * (monthlyRate * p)) (p - 1)
  | None => None
  end.

End CarDetail.

(** ** Sequences of calls on the cart *)

(** The mutating methods of the cart. *)
Inductive call : Type :=
| AddToCart (carId : string) (options : option Partial.t)
| UpdateCartItem (itemId : string) (updates : Partial.t)
| RemoveFromCart (itemId : string)
| ClearCart.

(** The storage a call leaves behind, whether it returns or throws. *)
Definition perform (w : World) (c : call) (ls : localStorage) : localStorage :=
  match c with
  | AddToCart carId options => stored_after (ApiClient.addToCart w carId options) ls
  | UpdateCartItem itemId updates => stored_after (ApiClient.updateCartItem w itemId updates) ls
  | RemoveFromCart itemId => stored_after (ApiClient.removeFromCart w itemId) ls
  | ClearCart => stored_after ApiClient.clearCart ls
  end.

(** Calls made one after the other, each in its own world. *)
Fixpoint run (script : list (World * call)) (ls : localStorage) : localStorage :=
  match script with
  | [] => ls
  | (w, c) :: rest => run rest (perform w c ls)
  end.

(** A browser that never held a cart: no value under the key. *)
Definition fresh : localStorage := None.

(** The states of the store the cart methods can produce. *)
Inductive reachable : localStorage -> Prop :=
| reachable_fresh : reachable fresh
| reachable_step w c ls : reachable ls -> reachable (perform w c ls).

(** The sequence of line items under the key; empty when there is none. *)
Definition persisted (ls : localStorage) : list CartItem.t :=
  match ls with
  | Some (Serialized items) => items
  | _ => []
  end.

(** A store whose text [JSON.parse] accepts, or that holds no text. *)
Definition readable (ls : localStorage) : Prop := ls <> Some Malformed.

(** At most one line item per product identifier. *)
Definition one_line_per_product (ls : localStorage) : Prop :=
  NoDup (map CartItem.carId (persisted ls)).

(** A call that leaves the product reference of line items alone:
    [addToCart] whose options carry no [carId] other than the product added,
    [updateCartItem] whose updates carry no [carId]. *)
Definition keeps_carId (c : call) : Prop :=
  match c with
  | AddToCart carId (Some options) =>
      Partial.carId options = None \/ Partial.carId options = Some carId
  | UpdateCartItem _ updates => Partial.carId updates = None
  | _ => True
  end.

(** The states reachable by such calls only. *)
Inductive reachable_keeping_carId : localStorage -> Prop :=
| keeping_fresh : reachable_keeping_carId fresh
| keeping_step w c ls :
    reachable_keeping_carId ls -> keeps_carId c ->
    reachable_keeping_carId (perform w c ls).

(** ** Reference quantities the statements below compare the code with *)

(** A line item without its product snapshot. *)
Definition without_car (item : CartItem.t) : CartItem.t :=
  {| CartItem._id := CartItem._id item;
     CartItem.userId := CartItem.userId item;
     CartItem.carId := CartItem.carId item;
     CartItem.car := None;
     CartItem.quantity := CartItem.quantity item;
     CartItem.addedAt := CartItem.addedAt item;
     CartItem.notes := CartItem.notes item;
     CartItem.financing := CartItem.financing item |}.

(** The sum of a sequence of numbers. *)
Definition total_of (l : list number) : number := fold_right Qplus 0 l.

(** Price times quantity of the product attached to an item; nothing when no
    product is attached. *)
Definition attachedAmount (item : CartItem.t) : number :=
  match CartItem.car item with
  | Some data => Car.price data * CartItem.quantity item
  | None => 0
  end.

(** Price times quantity of a stored item when the catalog resolves its
    product in world [w]; nothing when the request fails. *)
Definition resolvedAmount (w : World) (item : CartItem.t) : number :=
  match catalog w (CartItem.carId item) with
  | Some data => Car.price data * CartItem.quantity item
  | None => 0
  end.

(** As [resolvedAmount], but an item whose request fails counts with the
    snapshot stored with it, if any. *)
Definition resolvedOrStoredAmount (w : World) (item : CartItem.t) : number :=
  match catalog w (CartItem.carId item) with
  | Some data => Car.price data * CartItem.quantity item
  | None => attachedAmount item
  end.

(** The object literal of [addToCart] before [...options] is spread over
    it: the generated identifier, the guest user, quantity 1, the time. *)
Definition defaultItem (w : World) (carId : string) : CartItem.t :=
  {| CartItem._id := toString (Date_now w);
     CartItem.userId := "guest";
     CartItem.carId := carId;
     CartItem.car := None;
     CartItem.quantity := 1;
     CartItem.addedAt := Date_toISOString w;
     CartItem.notes := None;
     CartItem.financing := None |}.

(** The predicate of [cartItems.filter] in [removeFromCart]. *)
Definition other_than (itemId : string) (item : CartItem.t) : bool :=
  negb (CartItem._id item =? itemId)%string.

(** The number of line items that reference product [P]. *)
Definition count_product (P : string) (items : list CartItem.t) : nat :=
  List.length (filter (fun item => (CartItem.carId item =? P)%string) items).

(** ** Concrete data for the examples *)

Definition granta : Car.t :=
  {| Car._id := "A"; Car.brand := "Lada"; Car.model := "Granta"; Car.year := 2023;
     Car.price := 500000; Car.mileage := 0; Car.fuelType := "petrol";
     Car.transmission := "manual"; Car.bodyType := "sedan"; Car.engineVolume := 1.6;
     Car.power := 90; Car.color := "white"; Car.vin := "XTA00000000000001";
     Car.status := "available"; Car.images := []; Car.features := ["ABS"];
     Car.description := "sedan"; Car.isNew := true; Car.isHit := false;
     Car.createdAt := "2024-01-01T00:00:00.000Z";
     Car.updatedAt := "2024-01-01T00:00:00.000Z" |}.

Definition vesta : Car.t :=
  {| Car._id := "B"; Car.brand := "Lada"; Car.model := "Vesta"; Car.year := 2024;
     Car.price := 300000; Car.mileage := 12000; Car.fuelType := "petrol";
     Car.transmission := "automatic"; Car.bodyType := "sedan"; Car.engineVolume := 1.8;
     Car.power := 122; Car.color := "grey"; Car.vin := "XTA00000000000002";
     Car.status := "available"; Car.images := []; Car.features := [];
     Car.description := "sedan"; Car.isNew := false; Car.isHit := true;
     Car.createdAt := "2024-02-01T00:00:00.000Z";
     Car.updatedAt := "2024-02-01T00:00:00.000Z" |}.

(** A catalog that knows the two cars above. *)
Definition showroom (id : string) : option Car.t :=
  if (id =? "A")%string then Some granta
  else if (id =? "B")%string then Some vesta
  else None.

(** The catalog answers, at two instants. *)
Definition online (now : N) : World :=
  {| catalog := showroom; Date_now := now;
     Date_toISOString := "2024-03-01T10:00:00.000Z" |}.

(** The catalog is unreachable. *)
Definition offline (now : N) : World :=
  {| catalog := fun _ => None; Date_now := now;
     Date_toISOString := "2024-03-01T11:00:00.000Z" |}.

(** The overrides [{ carId }] and [{ quantity }], the updates [{ car }]. *)
Definition only_carId (Q : string) : Partial.t :=
  {| Partial._id := None; Partial.userId := None; Partial.carId := Some Q;
     Partial.car := None; Partial.quantity := None; Partial.addedAt := None;
     Partial.notes := None; Partial.financing := None |}.

Definition only_quantity (q : number) : Partial.t :=
  {| Partial._id := None; Partial.userId := None; Partial.carId := None;
     Partial.car := None; Partial.quantity := Some q; Partial.addedAt := None;
     Partial.notes := None; Partial.financing := None |}.

Definition only_car (data : Car.t) : Partial.t :=
  {| Partial._id := None; Partial.userId := None; Partial.carId := None;
     Partial.car := Some (Some data); Partial.quantity := None; Partial.addedAt := None;
     Partial.notes := None; Partial.financing := None |}.

(** The store after product "A" was added to a fresh cart while the catalog
    was unreachable. *)
Definition one_bare_item : localStorage :=
  perform (offline 1700000000000) (AddToCart "A" None) fresh.

(** Product "A" is added; then "B" is added with the options
    [{ carId: "A" }]. *)
Definition add_B_as_A : list (World * call) :=
  [ (online 1700000000000, AddToCart "A" None);
    (online 1700000000500, AddToCart "B" (Some (only_carId "A"))) ].

(** Products "A" and "B" are added; then the line item of "B" is updated
    with [{ carId: "A" }]. *)
Definition retarget_B_to_A : list (World * call) :=
  [ (online 1700000000000, AddToCart "A" None);
    (online 1700000000500, AddToCart "B" None);
    (online 1700000000900, UpdateCartItem "1700000000500" (only_carId "A")) ].

(** The store after "A" and then "B" were added while the catalog was
    unreachable. *)
Definition two_bare_items : localStorage :=
  run [ (offline 1700000000000, AddToCart "A" None);
        (offline 1700000000500, AddToCart "B" None) ] fresh.

(** The store after "A" was added and its quantity set to 2, the catalog
    answering. *)
Definition two_grantas : localStorage :=
  run [ (online 1700000000000, AddToCart "A" None);
        (online 1700000000500, UpdateCartItem "1700000000000" (only_quantity 2)) ] fresh.

(** ** [Set<string>], in insertion order *)

Module StringSet.

Definition t : Type := list string.

(** [set.has(x)] *)
Definition has (s : t) (x : string) : bool := existsb (String.eqb x) s.

(** [set.add(x)]: a new element goes last, a known one changes nothing. *)
Definition add (x : string) (s : t) : t := if has s x then s else (s ++ [x])%list.

(** [set.delete(x)] *)
Definition delete (x : string) (s : t) : t := filter (fun y => negb (y =? x)%string) s.

(** [new Set(array)] *)
Definition from (array : list string) : t := fold_left (fun s x => add x s) array [].

(** [set.size] *)
Definition size (s : t) : nat := List.length s.

(** [[...set]] and [Array.from(set)] *)
Definition elements (s : t) : list string := s.

End StringSet.

(** ** The cart hook ([export const useCart = () => ...]) *)

Module useCart.

(** The notifications of the hook.  A failure shows [error.message], or a
    fixed text when the message is empty; the model keeps the error. *)
Inductive toast : Type :=
| LoadFailed
| Added
| AddFailed (error : exn)
| Updated
| UpdateFailed (error : exn)
| Removed
| RemoveFailed (error : exn)
| Cleared
| ClearFailed (error : exn).

(** [cartItems], [loading] and [total] are the three [useState] cells. *)
Record State : Type := {
  cartItems : list CartItem.t;
  loading : bool;
  total : number;
  toasts : list toast
}.

(** [useState([])], [useState(false)], [useState(0)] *)
Definition initial : State :=
  {| cartItems := []; loading := false; total := 0; toasts := [] |}.

Definition setCartItems (items : list CartItem.t) (st : State) : State :=
  {| cartItems := items; loading := loading st; total := total st; toasts := toasts st |}.

Definition setLoading (flag : bool) (st : State) : State :=
  {| cartItems := cartItems st; loading := flag; total := total st; toasts := toasts st |}.

Definition setTotal (amount : number) (st : State) : State :=
  {| cartItems := cartItems st; loading := loading st; total := amount; toasts := toasts st |}.

Definition notify (t : toast) (st : State) : State :=
  {| cartItems := cartItems st; loading := loading st; total := total st;
     toasts := (toasts st ++ [t])%list |}.

(** [loadCart]: two calls of the client, each in its own world; every
    error is caught. *)
Definition loadCart (w1 w2 : World) (st : State) (ls : localStorage)
  : State * localStorage :=
  let st := setLoading true st in
  match ApiClient.getCartItems w1 ls with
  | (Returned items, ls1) =>
      let st := setCartItems items st in
      match ApiClient.getCartTotal w2 ls1 with
      | (Returned totalAmount, ls2) => (setLoading false (setTotal totalAmount st), ls2)
      | (Thrown _, ls2) => (setLoading false (notify LoadFailed st), ls2)
      end
  | (Thrown _, ls1) => (setLoading false (notify LoadFailed st), ls1)
  end.

(** [addToCart(carId, options?)]: reloads on success; notifies and throws
    the error again on failure. *)
Definition addToCart (w0 w1 w2 : World) (carId : string) (options : option Partial.t)
  (st : State) (ls : localStorage) : outcome CartItem.t * State * localStorage :=
  let st := setLoading true st in
  match ApiClient.addToCart w0 carId options ls with
  | (Returned newItem, ls1) =>
      let (st1, ls2) := loadCart w1 w2 st ls1 in
      (Returned newItem, setLoading false (notify Added st1), ls2)
  | (Thrown error, ls1) =>
      (Thrown error, setLoading false (notify (AddFailed error) st), ls1)
  end.

(** [updateCartItem(itemId, updates)]: the error is notified, not thrown. *)
Definition updateCartItem (w0 w1 w2 : World) (itemId : string) (updates : Partial.t)
  (st : State) (ls : localStorage) : State * localStorage :=
  let st := setLoading true st in
  match ApiClient.updateCartItem w0 itemId updates ls with
  | (Returned _, ls1) =>
      let (st1, ls2) := loadCart w1 w2 st ls1 in
      (setLoading false (notify Updated st1), ls2)
  | (Thrown error, ls1) => (setLoading false (notify (UpdateFailed error) st), ls1)
  end.

(** [removeFromCart(itemId)] *)
Definition removeFromCart (w0 w1 w2 : World) (itemId : string)
  (st : State) (ls : localStorage) : State * localStorage :=
  let st := setLoading true st in
  match ApiClient.removeFromCart w0 itemId ls with
  | (Returned _, ls1) =>
      let (st1, ls2) := loadCart w1 w2 st ls1 in
      (setLoading false (notify Removed st1), ls2)
  | (Thrown error, ls1) => (setLoading false (notify (RemoveFailed error) st), ls1)
  end.

(** [clearCart()]: no reload, the state is emptied directly. *)
Definition clearCart (st : State) (ls : localStorage) : State * localStorage :=
  let st := setLoading true st in
  match ApiClient.clearCart ls with
  | (Returned _, ls1) =>
      (setLoading false (notify Cleared (setTotal 0 (setCartItems [] st))), ls1)
  | (Thrown error, ls1) => (setLoading false (notify (ClearFailed error) st), ls1)
  end.

(** [getCartItemsCount()] *)
Definition getCartItemsCount (st : State) : number :=
  fold_left (fun count item => count + CartItem.quantity item) (cartItems st) 0.

(** The effect that runs [loadCart] when the hook is mounted. *)
Definition mount (w1 w2 : World) (ls : localStorage) : State * localStorage :=
  loadCart w1 w2 initial ls.

End useCart.

(** ** The cart page: selection, quantities, checkout *)

(** The updates [{ notes }] and [{ financing }]. *)
Definition only_notes (notes : string) : Partial.t :=
  {| Partial._id := None; Partial.userId := None; Partial.carId := None;
     Partial.car := None; Partial.quantity := None; Partial.addedAt := None;
     Partial.notes := Some (Some notes); Partial.financing := None |}.

Definition only_financing (financing : option Financing.t) : Partial.t :=
  {| Partial._id := None; Partial.userId := None; Partial.carId := None;
     Partial.car := None; Partial.quantity := None; Partial.addedAt := None;
     Partial.notes := None; Partial.financing := Some financing |}.

Module CartPage.

Definition setSelectedItems (selected : StringSet.t) (st : Cart.State) : Cart.State :=
  {| Cart.cartItems := Cart.cartItems st;
     Cart.selectedItems := selected;
     Cart.promoCode := Cart.promoCode st;
     Cart.promoDiscount := Cart.promoDiscount st;
     Cart.toasts := Cart.toasts st |}.

(** [handleSelectItem(itemId, checked)] *)
Definition handleSelectItem (itemId : string) (checked : bool) (st : Cart.State)
  : Cart.State :=
  let newSelected := Cart.selectedItems st in
  setSelectedItems
    (if checked then StringSet.add itemId newSelected
     else StringSet.delete itemId newSelected)
    st.

(** [handleSelectAll(checked)] *)
Definition handleSelectAll (checked : bool) (st : Cart.State) : Cart.State :=
  if checked then
    setSelectedItems (StringSet.from (map CartItem._id (Cart.cartItems st))) st
  else setSelectedItems [] st.

(** [handleUpdateQuantity(itemId, quantity)]: [if (quantity < 1) return;] *)
Definition handleUpdateQuantity (w0 w1 w2 : World) (itemId : string) (quantity : number)
  (hook : useCart.State) (ls : localStorage) : useCart.State * localStorage :=
  if negb (Qle_bool 1 quantity) then (hook, ls)
  else useCart.updateCartItem w0 w1 w2 itemId (only_quantity quantity) hook ls.

(** [handleUpdateFinancing(itemId, financing)] *)
Definition handleUpdateFinancing (w0 w1 w2 : World) (itemId : string)
  (financing : option Financing.t) (hook : useCart.State) (ls : localStorage)
  : useCart.State * localStorage :=
  useCart.updateCartItem w0 w1 w2 itemId (only_financing financing) hook ls.

(** [handleUpdateNotes(itemId, notes)] *)
Definition handleUpdateNotes (w0 w1 w2 : World) (itemId : string) (notes : string)
  (hook : useCart.State) (ls : localStorage) : useCart.State * localStorage :=
  useCart.updateCartItem w0 w1 w2 itemId (only_notes notes) hook ls.

(** The storage side of [handleRemoveSelected].
    [Promise.all(Array.from(selectedItems).map(itemId => removeFromCart(itemId)))]
    starts every removal in the same turn: each call runs up to its first
    network request, so each one reads the storage as it is then, [ls].
    A call writes when the requests of its [getCartItems] have come back;
    [finished] lists the calls in the order this happens, with the world
    each one met.  Every write replaces the whole value. *)
Definition handleRemoveSelected_storage (finished : list (World * string))
  (ls : localStorage) : localStorage :=
  fold_left
    (fun current removal =>
       match ApiClient.removeFromCart (fst removal) (snd removal) ls with
       | (Returned _, written) => written
       | (Thrown _, _) => current
       end)
    finished ls.






End CartPage.

(** ** The catalog page: favorites, the compare list, adding to the cart *)

Module Catalog.

(** The text under the keys ['favorites'] and ['compare'], as far as the
    page can tell texts apart; a text that parses is trusted to be an array
    of identifiers. *)
Inductive IdsText : Type :=
| SerializedIds (ids : list string)   (* the text [JSON.stringify(ids)] *)
| BlankIds                            (* the empty string *)
| MalformedIds.                       (* a non-empty text that is not JSON *)

(** [localStorage], restricted to the two keys; [None] is [null]. *)
Record Shelves : Type := {
  favorites_key : option IdsText;
  compare_key : option IdsText
}.

Inductive toast : Type :=
| FavoriteRemoved
| FavoriteAdded
| CompareLimit.   (* destructive: no more than 3 cars can be compared *)

Record State : Type := {
  favorites : StringSet.t;
  compareList : StringSet.t;
  toasts : list toast
}.

(** [useState(new Set())] twice. *)
Definition initial : State := {| favorites := []; compareList := []; toasts := [] |}.

Definition setFavorites (s : StringSet.t) (st : State) : State :=
  {| favorites := s; compareList := compareList st; toasts := toasts st |}.

Definition setCompareList (s : StringSet.t) (st : State) : State :=
  {| favorites := favorites st; compareList := s; toasts := toasts st |}.

Definition notify (t : toast) (st : State) : State :=
  {| favorites := favorites st; compareList := compareList st;
     toasts := (toasts st ++ [t])%list |}.

(** [localStorage.setItem('favorites', JSON.stringify(ids))] *)
Definition saveFavorites (ids : list string) (sh : Shelves) : Shelves :=
  {| favorites_key := Some (SerializedIds ids); compare_key := compare_key sh |}.

(** [localStorage.setItem('compare', JSON.stringify(ids))] *)
Definition saveCompare (ids : list string) (sh : Shelves) : Shelves :=
  {| favorites_key := favorites_key sh; compare_key := Some (SerializedIds ids) |}.

(** [handleToggleFavorite(carId)] *)
Definition handleToggleFavorite (carId : string) (st : State) (sh : Shelves)
  : State * Shelves :=
  let newFavorites := favorites st in
  if StringSet.has newFavorites carId then
    let newFavorites := StringSet.delete carId newFavorites in
    (setFavorites newFavorites (notify FavoriteRemoved st),
     saveFavorites (StringSet.elements newFavorites) sh)
  else
    let newFavorites := StringSet.add carId newFavorites in
    (setFavorites newFavorites (notify FavoriteAdded st),
     saveFavorites (StringSet.elements newFavorites) sh).

(** [handleToggleCompare(carId)] *)
Definition handleToggleCompare (carId : string) (st : State) (sh : Shelves)
  : State * Shelves :=
  let newCompareList := compareList st in
  if StringSet.has newCompareList carId then
    let newCompareList := StringSet.delete carId newCompareList in
    (setCompareList newCompareList st,
     saveCompare (StringSet.elements newCompareList) sh)
  else if (StringSet.size newCompareList <? 3)%nat then
    let newCompareList := StringSet.add carId newCompareList in
    (setCompareList newCompareList st,
     saveCompare (StringSet.elements newCompareList) sh)
  else (notify CompareLimit st, sh).

(** One half of the effect that loads the saved sets:
    [if (saved) setX(new Set(JSON.parse(saved)))]. *)
Definition parseSaved (saved : option IdsText) : exn + option StringSet.t :=
  match saved with
  | None => inr None
  | Some BlankIds => inr None
  | Some (SerializedIds ids) => inr (Some (StringSet.from ids))
  | Some MalformedIds => inl SyntaxError
  end.

(** The effect itself: favorites first, then the compare list; a text that
    fails to parse throws out of the effect. *)
Definition loadSaved (st : State) (sh : Shelves) : outcome State :=
  match parseSaved (favorites_key sh) with
  | inl e => Thrown e
  | inr savedFavorites =>
      let st := match savedFavorites with
                | Some s => setFavorites s st
                | None => st
                end in
      match parseSaved (compare_key sh) with
      | inl e => Thrown e
      | inr savedCompare =>
          Returned (match savedCompare with
                    | Some s => setCompareList s st
                    | None => st
                    end)
      end
  end.

(** [handleAddToCart(car)]: the error the hook throws again is dropped. *)
Definition handleAddToCart (w0 w1 w2 : World) (car : Car.t)
  (hook : useCart.State) (ls : localStorage) : useCart.State * localStorage :=
  match useCart.addToCart w0 w1 w2 (Car._id car) None hook ls with
  | (_, hook', ls') => (hook', ls')
  end.

End Catalog.

(** ** The product page: loading the car, adding it to the cart *)

Module CarDetailPage.

(** The two requests of the page.  A rejected [getCarById] is [inl] of the
    [message] of the error; a rejected [getCarsByBrand] is [None]. *)
Record Service : Type := {
  getCarById : string -> string + Car.t;
  getCarsByBrand : string -> option (list Car.t)
}.

Record State : Type := {
  car : option Car.t;
  loading : bool;
  error : option string;
  relatedCars : list Car.t
}.

(** [useState(null)], [useState(true)], [useState(null)], [useState([])] *)
Definition initial : State :=
  {| car := None; loading := true; error := None; relatedCars := [] |}.

Definition setCar (data : Car.t) (st : State) : State :=
  {| car := Some data; loading := loading st; error := error st;
     relatedCars := relatedCars st |}.

Definition setLoading (flag : bool) (st : State) : State :=
  {| car := car st; loading := flag; error := error st; relatedCars := relatedCars st |}.

Definition setError (message : option string) (st : State) : State :=
  {| car := car st; loading := loading st; error := message;
     relatedCars := relatedCars st |}.

Definition setRelatedCars (cars : list Car.t) (st : State) : State :=
  {| car := car st; loading := loading st; error := error st; relatedCars := cars |}.

(** [message || fallback] on strings *)
Definition or_text (message fallback : string) : string :=
  if (message =? "")%string then fallback else message.

(** [loadCar()]; [id] is the route parameter, [None] when [undefined]. *)
Definition loadCar (s : Service) (id : option string) (st : State) : State :=
  match id with
  | None => setLoading false (setError (Some "ID автомобиля не указан") st)
  | Some id =>
      if (id =? "")%string then
        setLoading false (setError (Some "ID автомобиля не указан") st)
      else
        let st := setError None (setLoading true st) in
        match getCarById s id with
        | inr data =>
            let st := setCar data st in
            let st :=
              if (Car.brand data =? "")%string then st
              else
                match getCarsByBrand s (Car.brand data) with
                | Some related =>
                    let filtered :=
                      firstn 4
                        (filter (fun relatedCar => negb (Car._id relatedCar =? id)%string)
                           related) in
                    setRelatedCars filtered st
                | None => st
                end in
            setLoading false st
        | inl message =>
            setLoading false (setError (Some (or_text message "Автомобиль не найден")) st)
        end
  end.

(** [handleAddToCart()]: [if (!car) return;] *)
Definition handleAddToCart (w0 w1 w2 : World) (st : State)
  (hook : useCart.State) (ls : localStorage) : useCart.State * localStorage :=
  match car st with
  | None => (hook, ls)
  | Some data =>
      match useCart.addToCart w0 w1 w2 (Car._id data) None hook ls with
      | (_, hook', ls') => (hook', ls')
      end
  end.

End CarDetailPage.

(** ** What the pages can do to the stored cart *)

(** The stores the three pages can produce from a fresh one, whatever the
    state of the hook and the answers of the catalog. *)
Inductive ui_reachable : localStorage -> Prop :=
| ui_fresh : ui_reachable fresh
| ui_catalog_add w0 w1 w2 car hook ls :
    ui_reachable ls ->
    ui_reachable (snd (Catalog.handleAddToCart w0 w1 w2 car hook ls))
| ui_detail_add w0 w1 w2 page hook ls :
    ui_reachable ls ->
    ui_reachable (snd (CarDetailPage.handleAddToCart w0 w1 w2 page hook ls))
| ui_quantity w0 w1 w2 itemId quantity hook ls :
    ui_reachable ls ->
    ui_reachable (snd (CartPage.handleUpdateQuantity w0 w1 w2 itemId quantity hook ls))
| ui_financing w0 w1 w2 itemId financing hook ls :
    ui_reachable ls ->
    ui_reachable (snd (CartPage.handleUpdateFinancing w0 w1 w2 itemId financing hook ls))
| ui_notes w0 w1 w2 itemId notes hook ls :
    ui_reachable ls ->
    ui_reachable (snd (CartPage.handleUpdateNotes w0 w1 w2 itemId notes hook ls))
| ui_remove w0 w1 w2 itemId hook ls :
    ui_reachable ls ->
    ui_reachable (snd (useCart.removeFromCart w0 w1 w2 itemId hook ls))
| ui_remove_selected finished ls :
    ui_reachable ls ->
    ui_reachable (CartPage.handleRemoveSelected_storage finished ls)
| ui_clear hook ls :
    ui_reachable ls ->
    ui_reachable (snd (useCart.clearCart hook ls)).

(** Every stored line item has a quantity of at least 1 and belongs to the
    guest user. *)
Definition well_formed_lines (ls : localStorage) : Prop :=
  Forall (fun item => 1 <= CartItem.quantity item /\ CartItem.userId item = "guest")
    (persisted ls).

(** The client calls the pages make: [addToCart(car._id)] without options,
    [updateCartItem] with [{ quantity }] for a quantity of at least 1, with
    [{ financing }] or with [{ notes }], and any removal or clear. *)
Definition page_call (c : call) : Prop :=
  match c with
  | AddToCart _ options => options = None
  | UpdateCartItem _ updates =>
      Partial.carId updates = None /\ Partial.userId updates = None /\
      (forall q, Partial.quantity updates = Some q -> 1 <= q)
  | RemoveFromCart _ => True
  | ClearCart => True
  end.

(** * Properties *)

(** ** The calls, equation by equation *)

Section Calls.

Variable w : World.

Lemma readCart_eq (ls : localStorage) :
  ApiClient.readCart ls =
  (match ls with
   | Some Malformed => Thrown SyntaxError
   | _ => Returned (persisted ls)
   end, ls).
Proof. destruct ls as [[items| |]|]; reflexivity. Qed.

Lemma getCartItems_eq (ls : localStorage) :
  ApiClient.getCartItems w ls =
  (match ls with
   | Some Malformed => Thrown SyntaxError
   | _ => Returned (map (ApiClient.attachCar w) (persisted ls))
   end, ls).
Proof.
  unfold ApiClient.getCartItems, bind. rewrite readCart_eq.
  destruct ls as [[items| |]|]; reflexivity.
Qed.

Lemma getCartItems_readable (ls : localStorage) :
  readable ls ->
  ApiClient.getCartItems w ls =
  (Returned (map (ApiClient.attachCar w) (persisted ls)), ls).
Proof.
  intros Hr. rewrite getCartItems_eq.
  destruct ls as [[items| |]|]; try reflexivity. now elim Hr.
Qed.

Lemma attachCar_carId (item : CartItem.t) :
  CartItem.carId (ApiClient.attachCar w item) = CartItem.carId item.
Proof.
  unfold ApiClient.attachCar. now destruct (ApiClient.getCarById w _).
Qed.

Lemma attachCar_id (item : CartItem.t) :
  CartItem._id (ApiClient.attachCar w item) = CartItem._id item.
Proof.
  unfold ApiClient.attachCar. now destruct (ApiClient.getCarById w _).
Qed.

Lemma attachCar_quantity (item : CartItem.t) :
  CartItem.quantity (ApiClient.attachCar w item) = CartItem.quantity item.
Proof.
  unfold ApiClient.attachCar. now destruct (ApiClient.getCarById w _).
Qed.

Lemma attachCar_resolved (item : CartItem.t) (data : Car.t) :
  catalog w (CartItem.carId item) = Some data ->
  ApiClient.attachCar w item = with_car item data.
Proof.
  intros H. unfold ApiClient.attachCar, ApiClient.getCarById. now rewrite H.
Qed.

Lemma attachCar_failed (item : CartItem.t) :
  catalog w (CartItem.carId item) = None ->
  ApiClient.attachCar w item = item.
Proof.
  intros H. unfold ApiClient.attachCar, ApiClient.getCarById. now rewrite H.
Qed.

Lemma map_carId_attachCar (items : list CartItem.t) :
  map CartItem.carId (map (ApiClient.attachCar w) items) = map CartItem.carId items.
Proof.
  rewrite map_map. apply map_ext. exact attachCar_carId.
Qed.

Lemma map_id_attachCar (items : list CartItem.t) :
  map CartItem._id (map (ApiClient.attachCar w) items) = map CartItem._id items.
Proof.
  rewrite map_map. apply map_ext. exact attachCar_id.
Qed.

End Calls.

(** ** [find], [findIndex] and index assignment *)

Section Arrays.

Context {A : Type} (p : A -> bool).

Lemma find_none_iff (l : list A) :
  find p l = None <-> forall x, In x l -> p x = false.
Proof.
  induction l as [|a l IH]; simpl.
  - split; [intros _ x [] | reflexivity].
  - destruct (p a) eqn:Ha.
    + split; [discriminate|]. intros H. rewrite (H a) in Ha by now left. discriminate.
    + rewrite IH. split.
      * intros H x [<-|Hx]; auto.
      * intros H x Hx. apply H. now right.
Qed.

(** [findIndex] answers the position of the first element that satisfies the
    predicate; reading and assigning at that position stay inside the
    array. *)
Lemma findIndex_inside (l : list A) (i : nat) :
  ApiClient.findIndex p l = Some i ->
  exists before x after,
    l = (before ++ x :: after)%list /\ List.length before = i /\ p x = true /\
    (forall y, In y before -> p y = false) /\
    nth_error l i = Some x /\
    (forall v, ApiClient.assign l i v = (before ++ v :: after)%list).
Proof.
  revert i. induction l as [|a l IH]; simpl; intros i H; [discriminate|].
  destruct (p a) eqn:Ha.
  - injection H as <-. exists [], a, l. simpl. repeat split; auto. now intros y [].
  - destruct (ApiClient.findIndex p l) as [j|] eqn:Hj; [|discriminate].
    simpl in H. injection H as <-.
    destruct (IH j eq_refl) as (before & x & after & -> & Hlen & Hx & Hb & Hn & Hassign).
    exists (a :: before), x, after. simpl. repeat split; auto.
    + intros y [<-|Hy]; auto.
    + intros v. now rewrite Hassign.
Qed.

Lemma findIndex_none_iff (l : list A) :
  ApiClient.findIndex p l = None <-> forall x, In x l -> p x = false.
Proof.
  induction l as [|a l IH]; simpl.
  - split; [intros _ x [] | reflexivity].
  - destruct (p a) eqn:Ha.
    + split; [discriminate|]. intros H. rewrite (H a) in Ha by now left. discriminate.
    + destruct (ApiClient.findIndex p l) as [j|]; simpl.
      * split; [discriminate|]. intros H.
        assert (Hc : Some j = None) by (apply IH; intros x Hx; apply H; now right).
        discriminate.
      * split; [|reflexivity]. intros _ x [<-|Hx]; auto.
        now apply IH.
Qed.

End Arrays.

(** ** The mutating calls on a readable store *)

Section Mutations.

Variable w : World.

Lemma find_product_absent (P : string) (items : list CartItem.t) :
  ~ In P (map CartItem.carId items) ->
  find (fun item => CartItem.carId item =? P)%string items = None.
Proof.
  intros Hn. apply find_none_iff. intros x Hx.
  apply String.eqb_neq. intros E. apply Hn. rewrite <- E. now apply in_map.
Qed.

Lemma find_product_present (P : string) (items : list CartItem.t) :
  In P (map CartItem.carId items) ->
  exists existingItem,
    find (fun item => CartItem.carId item =? P)%string items = Some existingItem.
Proof.
  intros Hin.
  destruct (find (fun item => CartItem.carId item =? P)%string items) as [x|] eqn:Hf;
    [now exists x|].
  apply in_map_iff in Hin as (x & <- & Hx).
  rewrite find_none_iff in Hf. specialize (Hf x Hx). simpl in Hf.
  now rewrite String.eqb_refl in Hf.
Qed.

Lemma addToCart_absent (ls : localStorage) (P : string) (options : option Partial.t) :
  readable ls ->
  ~ In P (map CartItem.carId (persisted ls)) ->
  ApiClient.addToCart w P options ls =
  (Returned (match catalog w P with
             | Some data => with_car (spread_optional (defaultItem w P) options) data
             | None => spread_optional (defaultItem w P) options
             end),
   Some (Serialized (map (ApiClient.attachCar w) (persisted ls)
                       ++ [spread_optional (defaultItem w P) options])%list)).
Proof.
  intros Hr Hn. unfold ApiClient.addToCart, bind.
  rewrite (getCartItems_readable w ls Hr).
  rewrite find_product_absent by now rewrite map_carId_attachCar.
  reflexivity.
Qed.

Lemma addToCart_present (ls : localStorage) (P : string) (options : option Partial.t) :
  In P (map CartItem.carId (persisted ls)) ->
  ApiClient.addToCart w P options ls = (Thrown DuplicateItem, ls).
Proof.
  intros Hin. unfold ApiClient.addToCart, bind.
  rewrite getCartItems_readable.
  - destruct (find_product_present P (map (ApiClient.attachCar w) (persisted ls)))
      as (x & ->); [now rewrite map_carId_attachCar | reflexivity].
  - intros ->. exact Hin.
Qed.

Lemma removeFromCart_readable (ls : localStorage) (itemId : string) :
  readable ls ->
  ApiClient.removeFromCart w itemId ls =
  (Returned tt,
   Some (Serialized (filter (other_than itemId) (map (ApiClient.attachCar w) (persisted ls))))).
Proof.
  intros Hr. unfold ApiClient.removeFromCart, bind.
  now rewrite (getCartItems_readable w ls Hr).
Qed.

Lemma updateCartItem_missing (ls : localStorage) (itemId : string) (updates : Partial.t) :
  readable ls ->
  ~ In itemId (map CartItem._id (persisted ls)) ->
  ApiClient.updateCartItem w itemId updates ls = (Thrown ItemNotFound, ls).
Proof.
  intros Hr Hn. unfold ApiClient.updateCartItem, bind.
  rewrite (getCartItems_readable w ls Hr).
  replace (ApiClient.findIndex _ _) with (@None nat); [reflexivity|].
  symmetry. apply findIndex_none_iff. intros x Hx.
  apply String.eqb_neq. intros E. apply Hn.
  rewrite <- (map_id_attachCar w), <- E. now apply in_map.
Qed.

(** When some item carries the identifier, the first such item is replaced
    by itself with the updates spread over it; the others are written back
    as [getCartItems] returned them. *)
Lemma updateCartItem_found (ls : localStorage) (itemId : string) (updates : Partial.t) :
  readable ls ->
  In itemId (map CartItem._id (persisted ls)) ->
  exists before item after,
    map (ApiClient.attachCar w) (persisted ls) = (before ++ item :: after)%list /\
    CartItem._id item = itemId /\
    (forall y, In y before -> CartItem._id y <> itemId) /\
    ApiClient.updateCartItem w itemId updates ls =
    (Returned (spread item updates),
     Some (Serialized (before ++ spread item updates :: after)%list)).
Proof.
  intros Hr Hin. unfold ApiClient.updateCartItem, bind.
  rewrite (getCartItems_readable w ls Hr).
  destruct (ApiClient.findIndex (fun item => CartItem._id item =? itemId)%string
              (map (ApiClient.attachCar w) (persisted ls))) as [i|] eqn:Hi.
  - destruct (findIndex_inside _ _ _ Hi)
      as (before & x & after & Hl & _ & Hx & Hb & Hn & Hassign).
    exists before, x, after. rewrite Hn, Hassign.
    repeat split; auto.
    + now apply String.eqb_eq.
    + intros y Hy. apply String.eqb_neq. now apply Hb.
  - exfalso. rewrite findIndex_none_iff in Hi.
    rewrite <- (map_id_attachCar w) in Hin.
    apply in_map_iff in Hin as (x & Hid & Hx).
    specialize (Hi x Hx). simpl in Hi. rewrite Hid, String.eqb_refl in Hi. discriminate.
Qed.

Lemma perform_readable (c : call) (ls : localStorage) :
  readable ls -> readable (perform w c ls).
Proof.
  intros Hr. destruct c as [P options|itemId updates|itemId|]; simpl; unfold stored_after.
  - destruct (in_dec string_dec P (map CartItem.carId (persisted ls))) as [Hin|Hn].
    + now rewrite addToCart_present.
    + rewrite addToCart_absent by assumption. discriminate.
  - destruct (in_dec string_dec itemId (map CartItem._id (persisted ls))) as [Hin|Hn].
    + destruct (updateCartItem_found ls itemId updates Hr Hin)
        as (before & item & after & _ & _ & _ & ->). discriminate.
    + now rewrite updateCartItem_missing.
  - rewrite removeFromCart_readable by assumption. discriminate.
  - discriminate.
Qed.

End Mutations.

Lemma reachable_readable (ls : localStorage) : reachable ls -> readable ls.
Proof.
  induction 1 as [|w c ls _ IH]; [discriminate|]. now apply perform_readable.
Qed.

Lemma run_reachable (script : list (World * call)) (ls : localStorage) :
  reachable ls -> reachable (run script ls).
Proof.
  revert ls. induction script as [|[w c] rest IH]; simpl; intros ls H; [assumption|].
  apply IH. now constructor.
Qed.

(** ** Reading the store *)



(** ** Adding a product *)

(** C3: when the persisted sequence already holds a line item for product
    [P], [addToCart(P, options)] throws the duplicate-item error and the
    store after the call is the store before it. *)
Theorem addToCart_duplicate_rejected
  (w : World) (ls : localStorage) (P : string) (options : option Partial.t) :
  In P (map CartItem.carId (persisted ls)) ->
  answer (ApiClient.addToCart w P options) ls = Thrown DuplicateItem /\
  stored_after (ApiClient.addToCart w P options) ls = ls.
Proof.
  intros Hin. unfold answer, stored_after.
  rewrite addToCart_present by assumption. now split.
Qed.

Lemma addToCart_duplicate_rejected_witness :
  In "A" (map CartItem.carId (persisted one_bare_item)) /\
  answer (ApiClient.addToCart (online 1700000000500) "A" (Some (only_quantity 2)))
    one_bare_item = Thrown DuplicateItem /\
  stored_after (ApiClient.addToCart (online 1700000000500) "A" (Some (only_quantity 2)))
    one_bare_item = one_bare_item.
Proof.
  split.
  - vm_compute. now left.
  - apply (addToCart_duplicate_rejected (online 1700000000500) one_bare_item "A").
    vm_compute. now left.
Defined.

Lemma count_product_app (P : string) (l1 l2 : list CartItem.t) :
  count_product P (l1 ++ l2) = (count_product P l1 + count_product P l2)%nat.
Proof.
  unfold count_product. now rewrite filter_app, length_app.
Qed.

Lemma count_product_absent (P : string) (items : list CartItem.t) :
  ~ In P (map CartItem.carId items) -> count_product P items = 0%nat.
Proof.
  unfold count_product. induction items as [|x l IH]; simpl; intros Hn; [reflexivity|].
  destruct (CartItem.carId x =? P)%string eqn:E.
  - apply String.eqb_eq in E. elim Hn. now left.
  - apply IH. intros Hl. apply Hn. now right.
Qed.

Lemma count_product_attachCar (w : World) (P : string) (items : list CartItem.t) :
  count_product P (map (ApiClient.attachCar w) items) = count_product P items.
Proof.
  unfold count_product. induction items as [|x l IH]; simpl; [reflexivity|].
  rewrite attachCar_carId.
  destruct (CartItem.carId x =? P)%string; simpl; now rewrite IH.
Qed.

(** C5: when the cart holds no line item for product [P], [addToCart(P)]
    without options followed by [getCartItems()] returns a collection with
    exactly one line item whose [carId] is [P], and its quantity is 1. *)
Theorem addToCart_then_getCartItems
  (w1 w2 : World) (ls : localStorage) (P : string) :
  readable ls ->
  ~ In P (map CartItem.carId (persisted ls)) ->
  exists newItem items,
    answer (ApiClient.addToCart w1 P None) ls = Returned newItem /\
    answer (ApiClient.getCartItems w2)
      (stored_after (ApiClient.addToCart w1 P None) ls) = Returned items /\
    count_product P items = 1%nat /\
    (forall item, In item items ->
       CartItem.carId item = P -> CartItem.quantity item = 1).
Proof.
  intros Hr Hn. unfold answer, stored_after.
  rewrite (addToCart_absent w1 ls P None Hr Hn). cbn [fst snd].
  rewrite getCartItems_readable by discriminate. cbn [fst persisted].
  eexists. eexists. split; [reflexivity|]. split; [reflexivity|]. split.
  - rewrite count_product_attachCar, count_product_app, count_product_attachCar.
    rewrite count_product_absent by assumption.
    unfold count_product. simpl. now rewrite String.eqb_refl.
  - intros item Hin HP.
    apply in_map_iff in Hin as (y & <- & Hy).
    rewrite attachCar_carId in HP. rewrite attachCar_quantity.
    apply in_app_or in Hy as [Hy|[<-|[]]]; [|reflexivity].
    exfalso. apply Hn. rewrite <- HP, <- (map_carId_attachCar w1).
    now apply in_map.
Qed.

Lemma addToCart_then_getCartItems_witness :
  readable one_bare_item /\
  ~ In "B" (map CartItem.carId (persisted one_bare_item)) /\
  exists newItem items,
    answer (ApiClient.addToCart (online 1700000000500) "B" None) one_bare_item
      = Returned newItem /\
    answer (ApiClient.getCartItems (offline 1700000000900))
      (stored_after (ApiClient.addToCart (online 1700000000500) "B" None) one_bare_item)
      = Returned items /\
    count_product "B" items = 1%nat /\
    (forall item, In item items ->
       CartItem.carId item = "B" -> CartItem.quantity item = 1).
Proof.
  assert (Hr : readable one_bare_item) by (vm_compute; discriminate).
  assert (Hn : ~ In "B" (map CartItem.carId (persisted one_bare_item)))
    by (vm_compute; intros [H|[]]; discriminate).
  split; [exact Hr|]. split; [exact Hn|].
  exact (addToCart_then_getCartItems (online 1700000000500) (offline 1700000000900)
           one_bare_item "B" Hr Hn).
Defined.

(** C9: in a call [addToCart(productId, options)] that passes the duplicate
    check, the persisted sequence grows by one line item, the defaults with
    the options spread over them: every key present in [options] replaces
    the generated default, [quantity], [_id], [userId], [addedAt] and
    [carId] included.  The duplicate check looks for [productId] only, so
    the item may reference a product [Q] that the cart already holds. *)
Theorem addToCart_options_win
  (w : World) (ls : localStorage) (P : string) (options : Partial.t) :
  readable ls ->
  ~ In P (map CartItem.carId (persisted ls)) ->
  exists newItem,
    persisted (stored_after (ApiClient.addToCart w P (Some options)) ls) =
      (map (ApiClient.attachCar w) (persisted ls) ++ [newItem])%list /\
    newItem = spread (defaultItem w P) options /\
    (forall v, Partial._id options = Some v -> CartItem._id newItem = v) /\
    (forall v, Partial.userId options = Some v -> CartItem.userId newItem = v) /\
    (forall v, Partial.carId options = Some v -> CartItem.carId newItem = v) /\
    (forall v, Partial.car options = Some v -> CartItem.car newItem = v) /\
    (forall v, Partial.quantity options = Some v -> CartItem.quantity newItem = v) /\
    (forall v, Partial.addedAt options = Some v -> CartItem.addedAt newItem = v) /\
    (forall v, Partial.notes options = Some v -> CartItem.notes newItem = v) /\
    (forall v, Partial.financing options = Some v -> CartItem.financing newItem = v).
Proof.
  intros Hr Hn. unfold stored_after.
  rewrite (addToCart_absent w ls P (Some options) Hr Hn). simpl.
  exists (spread (defaultItem w P) options).
  repeat split; intros v Hv; simpl; now rewrite Hv.
Qed.

Lemma addToCart_options_win_witness :
  readable one_bare_item /\
  ~ In "B" (map CartItem.carId (persisted one_bare_item)) /\
  map CartItem.carId
    (persisted (stored_after
       (ApiClient.addToCart (online 1700000000500) "B" (Some (only_carId "A")))
       one_bare_item)) = ["A"; "A"] /\
  map CartItem.quantity
    (persisted (stored_after
       (ApiClient.addToCart (online 1700000000500) "B" (Some (only_quantity 0)))
       one_bare_item)) = [1; 0].
Proof.
  assert (Hr : readable one_bare_item) by (vm_compute; discriminate).
  assert (Hn : ~ In "B" (map CartItem.carId (persisted one_bare_item)))
    by (vm_compute; intros [H|[]]; discriminate).
  split; [exact Hr|]. split; [exact Hn|]. split.
  - destruct (addToCart_options_win (online 1700000000500) one_bare_item "B"
                (only_carId "A") Hr Hn) as (newItem & -> & -> & _).
    reflexivity.
  - destruct (addToCart_options_win (online 1700000000500) one_bare_item "B"
                (only_quantity 0) Hr Hn) as (newItem & -> & -> & _).
    reflexivity.
Defined.

(** ** One line item per product *)

(** C1, as stated, fails: after [addToCart("A")] and then
    [addToCart("B", { carId: "A" })] the persisted sequence holds two line
    items that reference product "A"; the duplicate check compared "B".
    [updateCartItem] with [{ carId: "A" }] on the line item of "B" does the
    same; it checks nothing. *)
Lemma two_lines_for_one_product :
  reachable (run add_B_as_A fresh) /\
  map CartItem.carId (persisted (run add_B_as_A fresh)) = ["A"; "A"] /\
  ~ one_line_per_product (run add_B_as_A fresh) /\
  reachable (run retarget_B_to_A fresh) /\
  map CartItem.carId (persisted (run retarget_B_to_A fresh)) = ["A"; "A"] /\
  ~ one_line_per_product (run retarget_B_to_A fresh).
Proof.
  assert (Htwice : ~ NoDup ["A"; "A"]).
  { intros H. inversion H as [|x l Hnotin _]. apply Hnotin. now left. }
  split; [apply run_reachable; constructor|]. split; [reflexivity|].
  split; [exact Htwice|].
  split; [apply run_reachable; constructor|]. split; [reflexivity|].
  exact Htwice.
Qed.

Lemma NoDup_snoc {A : Type} (l : list A) (x : A) :
  NoDup l -> ~ In x l -> NoDup (l ++ [x]).
Proof.
  induction 1 as [|a l Ha Hl IH]; simpl; intros Hx.
  - constructor; [intros []|constructor].
  - constructor.
    + intros Hin. apply in_app_or in Hin as [Hin|[<-|[]]]; [now apply Ha|].
      apply Hx. now left.
    + apply IH. intros Hin. apply Hx. now right.
Qed.

(** Dropping line items keeps their product references distinct. *)
Lemma filter_keeps_products_distinct (keep : CartItem.t -> bool) (items : list CartItem.t) :
  NoDup (map CartItem.carId items) ->
  NoDup (map CartItem.carId (filter keep items)).
Proof.
  intros Hnd. induction items as [|x rest IH]; cbn [filter map] in *; [exact Hnd|].
  apply NoDup_cons_iff in Hnd as [Hx Hrest].
  destruct (keep x); cbn [map]; [|now apply IH].
  constructor; [|now apply IH].
  intros Hin. apply Hx.
  apply in_map_iff in Hin as (y & Hy & Hin). apply filter_In in Hin as [Hin _].
  rewrite <- Hy. now apply in_map.
Qed.

Lemma spread_keeps_carId (item : CartItem.t) (updates : Partial.t) :
  Partial.carId updates = None ->
  CartItem.carId (spread item updates) = CartItem.carId item.
Proof. intros H. simpl. now rewrite H. Qed.

Lemma newItem_carId (w : World) (P : string) (options : option Partial.t) :
  keeps_carId (AddToCart P options) ->
  CartItem.carId (spread_optional (defaultItem w P) options) = P.
Proof.
  destruct options as [o|]; simpl; [|reflexivity].
  intros [H|H]; now rewrite H.
Qed.

(** A call that leaves [carId] alone keeps the line items of a readable
    store distinct by product. *)
Lemma perform_keeps_one_line (w : World) (c : call) (ls : localStorage) :
  readable ls -> keeps_carId c ->
  one_line_per_product ls -> one_line_per_product (perform w c ls).
Proof.
  unfold one_line_per_product. intros Hr Hk Hnd.
  destruct c as [P options|itemId updates|itemId|]; simpl perform; unfold stored_after.
  - destruct (in_dec string_dec P (map CartItem.carId (persisted ls))) as [Hin|Hn].
    + now rewrite addToCart_present.
    + rewrite addToCart_absent by assumption. cbn [snd persisted].
      rewrite map_app, map_carId_attachCar. cbn [map].
      rewrite (newItem_carId w P options Hk). now apply NoDup_snoc.
  - destruct (in_dec string_dec itemId (map CartItem._id (persisted ls))) as [Hin|Hn].
    + destruct (updateCartItem_found w ls itemId updates Hr Hin)
        as (before & item & after & Hl & _ & _ & ->). cbn [snd persisted].
      rewrite <- (map_carId_attachCar w), Hl in Hnd.
      rewrite map_app in *. cbn [map] in *.
      now rewrite (spread_keeps_carId item updates Hk).
    + now rewrite updateCartItem_missing.
  - rewrite removeFromCart_readable by assumption. cbn [snd persisted].
    apply filter_keeps_products_distinct. now rewrite map_carId_attachCar.
  - simpl. constructor.
Qed.

(** C1, amended: in every store reachable from a fresh one by [addToCart],
    [updateCartItem], [removeFromCart] and [clearCart] calls whose options
    and updates leave [carId] alone, the persisted cart holds at most one
    line item per product identifier. *)
Theorem one_line_per_product_kept (ls : localStorage) :
  reachable_keeping_carId ls -> one_line_per_product ls.
Proof.
  intros H.
  assert (readable ls /\ one_line_per_product ls) as [_ G]; [|exact G].
  induction H as [|w c ls _ [Hr Hnd] Hk].
  - split; [discriminate|constructor].
  - split; [now apply perform_readable | now apply perform_keeps_one_line].
Qed.

Lemma one_line_per_product_kept_witness :
  reachable_keeping_carId two_grantas /\ one_line_per_product two_grantas.
Proof.
  assert (H : reachable_keeping_carId two_grantas).
  { unfold two_grantas. cbn [run].
    apply keeping_step; [apply keeping_step; [apply keeping_fresh | exact I] | reflexivity]. }
  split; [exact H | exact (one_line_per_product_kept two_grantas H)].
Defined.

(** ** The cart total *)

Lemma or_zero_eq (x : number) : or_zero x == x.
Proof.
  unfold or_zero. destruct (Qeq_bool x 0) eqn:E; [|reflexivity].
  apply Qeq_bool_iff in E. now symmetry.
Qed.

Lemma priceOrZero_amount (item : CartItem.t) :
  ApiClient.priceOrZero item * CartItem.quantity item == attachedAmount item.
Proof.
  unfold ApiClient.priceOrZero, attachedAmount.
  destruct (CartItem.car item) as [data|]; [now rewrite or_zero_eq | ring].
Qed.

(** The [reduce] of [getCartTotal] and [calculateSelectedTotal] is a sum. *)
Lemma reduce_total (items : list CartItem.t) (start : number) :
  fold_left
    (fun total item => total + ApiClient.priceOrZero item * CartItem.quantity item)
    items start
  == start + total_of (map attachedAmount items).
Proof.
  revert start. induction items as [|item rest IH]; intros start; simpl.
  - ring.
  - rewrite IH, priceOrZero_amount. ring.
Qed.

Lemma attachedAmount_attachCar (w : World) (item : CartItem.t) :
  attachedAmount (ApiClient.attachCar w item) = resolvedOrStoredAmount w item.
Proof.
  unfold resolvedOrStoredAmount, ApiClient.attachCar, ApiClient.getCarById.
  now destruct (catalog w (CartItem.carId item)).
Qed.

Lemma resolvedOrStored_bare (w : World) (item : CartItem.t) :
  CartItem.car item = None -> resolvedOrStoredAmount w item = resolvedAmount w item.
Proof.
  intros H. unfold resolvedOrStoredAmount, resolvedAmount, attachedAmount.
  now rewrite H.
Qed.

(** C6, as stated, fails: a line item whose product fails to resolve does
    not always contribute 0.  After "A" was added and its quantity set to 2
    with the catalog answering, the stored item carries the product
    snapshot ([updateCartItem] wrote it back); with the catalog unreachable
    [getCartTotal] still counts 500000 * 2 for it. *)
Lemma getCartTotal_counts_stored_snapshot :
  reachable two_grantas /\
  catalog (offline 1700000000900) "A" = None /\
  map CartItem.carId (persisted two_grantas) = ["A"] /\
  total_of (map (resolvedAmount (offline 1700000000900)) (persisted two_grantas)) == 0 /\
  exists total,
    answer (ApiClient.getCartTotal (offline 1700000000900)) two_grantas = Returned total /\
    total == 1000000 /\
    ~ total == total_of (map (resolvedAmount (offline 1700000000900)) (persisted two_grantas)).
Proof.
  split; [apply run_reachable; constructor|].
  split; [reflexivity|]. split; [reflexivity|]. split; [reflexivity|].
  eexists. split; [reflexivity|]. split; [reflexivity|].
  intros H. vm_compute in H. discriminate.
Qed.

(** C6, amended: on a readable store [getCartTotal()] returns the sum, over
    the line items [getCartItems()] returns, of price times quantity of the
    product attached to the item, 0 for an item with none.  In terms of the
    stored items: an item whose product resolves counts with the resolved
    price; an item whose product fails to resolve counts with the snapshot
    stored with it, and contributes 0 when it has none.  When no stored item
    carries a snapshot, unresolved items contribute exactly 0. *)
Theorem getCartTotal_sum (w : World) (ls : localStorage) :
  readable ls ->
  exists total,
    ApiClient.getCartTotal w ls = (Returned total, ls) /\
    total == total_of (map attachedAmount (map (ApiClient.attachCar w) (persisted ls))) /\
    total == total_of (map (resolvedOrStoredAmount w) (persisted ls)) /\
    (Forall (fun item => CartItem.car item = None) (persisted ls) ->
     total == total_of (map (resolvedAmount w) (persisted ls))).
Proof.
  intros Hr. unfold ApiClient.getCartTotal, bind.
  rewrite (getCartItems_readable w ls Hr). unfold ret.
  eexists. split; [reflexivity|].
  assert (H1 : fold_left
                 (fun total item =>
                    total + ApiClient.priceOrZero item * CartItem.quantity item)
                 (map (ApiClient.attachCar w) (persisted ls)) 0
               == total_of (map attachedAmount (map (ApiClient.attachCar w) (persisted ls)))).
  { rewrite reduce_total. ring. }
  assert (H2 : map attachedAmount (map (ApiClient.attachCar w) (persisted ls))
               = map (resolvedOrStoredAmount w) (persisted ls)).
  { rewrite map_map. apply map_ext. apply attachedAmount_attachCar. }
  split; [exact H1|]. split; [now rewrite H1, H2|].
  intros Hbare. rewrite H1, H2.
  replace (map (resolvedOrStoredAmount w) (persisted ls))
    with (map (resolvedAmount w) (persisted ls)); [reflexivity|].
  apply map_ext_in. intros item Hin. symmetry. apply resolvedOrStored_bare.
  rewrite Forall_forall in Hbare. now apply Hbare.
Qed.

Lemma getCartTotal_sum_witness :
  readable two_bare_items /\
  Forall (fun item => CartItem.car item = None) (persisted two_bare_items) /\
  exists total,
    ApiClient.getCartTotal (online 1700000000900) two_bare_items
      = (Returned total, two_bare_items) /\
    total == 800000.
Proof.
  assert (Hr : readable two_bare_items) by (vm_compute; discriminate).
  assert (Hb : Forall (fun item => CartItem.car item = None) (persisted two_bare_items))
    by (vm_compute; repeat constructor).
  split; [exact Hr|]. split; [exact Hb|].
  destruct (getCartTotal_sum (online 1700000000900) two_bare_items Hr)
    as (total & Hcall & _ & _ & Hsum).
  exists total. split; [exact Hcall|].
  rewrite (Hsum Hb). reflexivity.
Defined.

(** ** Removing and updating line items *)

Lemma filter_attachCar (w : World) (itemId : string) (items : list CartItem.t) :
  filter (other_than itemId) (map (ApiClient.attachCar w) items) =
  map (ApiClient.attachCar w) (filter (other_than itemId) items).
Proof.
  induction items as [|x rest IH]; cbn [filter map]; [reflexivity|].
  assert (E : other_than itemId (ApiClient.attachCar w x) = other_than itemId x)
    by (unfold other_than; now rewrite attachCar_id).
  rewrite E. destruct (other_than itemId x); cbn [map]; now rewrite IH.
Qed.

Lemma filter_again {A : Type} (keep : A -> bool) (l : list A) :
  filter keep (filter keep l) = filter keep l.
Proof.
  induction l as [|x rest IH]; simpl; [reflexivity|].
  destruct (keep x) eqn:E; simpl; [rewrite E|]; now rewrite IH.
Qed.

Lemma without_car_attachCar (w : World) (item : CartItem.t) :
  without_car (ApiClient.attachCar w item) = without_car item.
Proof.
  unfold ApiClient.attachCar. now destruct (ApiClient.getCarById w _).
Qed.

(** A second request that answers like the first attaches nothing new. *)
Lemma attachCar_again (w1 w2 : World) (item : CartItem.t) :
  catalog w2 (CartItem.carId item) = catalog w1 (CartItem.carId item) ->
  ApiClient.attachCar w2 (ApiClient.attachCar w1 item) = ApiClient.attachCar w1 item.
Proof.
  intros H. unfold ApiClient.attachCar at 1. rewrite attachCar_carId.
  unfold ApiClient.attachCar, ApiClient.getCarById. rewrite H.
  now destruct (catalog w1 (CartItem.carId item)).
Qed.

(** The store after one and after two [removeFromCart] calls. *)
Lemma removeFromCart_once (w : World) (ls : localStorage) (itemId : string) :
  readable ls ->
  stored_after (ApiClient.removeFromCart w itemId) ls =
  Some (Serialized (map (ApiClient.attachCar w) (filter (other_than itemId) (persisted ls)))).
Proof.
  intros Hr. unfold stored_after.
  rewrite removeFromCart_readable by assumption. cbn [snd].
  now rewrite filter_attachCar.
Qed.

Lemma removeFromCart_twice (w1 w2 : World) (ls : localStorage) (itemId : string) :
  readable ls ->
  stored_after (ApiClient.removeFromCart w2 itemId)
    (stored_after (ApiClient.removeFromCart w1 itemId) ls) =
  Some (Serialized
          (map (ApiClient.attachCar w2)
             (map (ApiClient.attachCar w1) (filter (other_than itemId) (persisted ls))))).
Proof.
  intros Hr. rewrite (removeFromCart_once w1) by assumption.
  rewrite (removeFromCart_once w2) by discriminate. cbn [persisted].
  now rewrite filter_attachCar, filter_again.
Qed.

(** C7, as stated, fails: with "A" and "B" in the cart, both stored without
    a snapshot, removing A's line item while the catalog is unreachable and
    removing it again when the catalog answers leaves a persisted sequence
    different from the one the first call left: the second call attached
    the product to B's line item and wrote it back. *)
Lemma removeFromCart_twice_differs :
  reachable two_bare_items /\
  map CartItem._id (persisted two_bare_items) = ["1700000000000"; "1700000000500"] /\
  map CartItem.car
    (persisted (stored_after (ApiClient.removeFromCart (offline 1700000000700) "1700000000000")
                  two_bare_items)) = [None] /\
  map CartItem.car
    (persisted (stored_after (ApiClient.removeFromCart (online 1700000000900) "1700000000000")
                  (stored_after (ApiClient.removeFromCart (offline 1700000000700) "1700000000000")
                     two_bare_items))) = [Some vesta] /\
  stored_after (ApiClient.removeFromCart (online 1700000000900) "1700000000000")
    (stored_after (ApiClient.removeFromCart (offline 1700000000700) "1700000000000")
       two_bare_items)
  <> stored_after (ApiClient.removeFromCart (offline 1700000000700) "1700000000000")
       two_bare_items.
Proof.
  split; [apply run_reachable; constructor|].
  split; [reflexivity|]. split; [reflexivity|]. split; [reflexivity|].
  intros H. apply (f_equal (fun ls => map CartItem.car (persisted ls))) in H.
  vm_compute in H. discriminate.
Qed.

(** C7, amended: on every readable store, [removeFromCart(id)] returns
    without error, whether or not an item carries [id], and so does a second
    call; two calls in sequence leave the same line items as one, up to the
    product snapshots attached to them; when the catalog answers the second
    call as it answered the first for the products in the cart, the
    persisted sequences are equal. *)
Theorem removeFromCart_idempotent
  (w1 w2 : World) (ls : localStorage) (itemId : string) :
  readable ls ->
  answer (ApiClient.removeFromCart w1 itemId) ls = Returned tt /\
  answer (ApiClient.removeFromCart w2 itemId)
    (stored_after (ApiClient.removeFromCart w1 itemId) ls) = Returned tt /\
  map without_car
    (persisted (stored_after (ApiClient.removeFromCart w2 itemId)
                  (stored_after (ApiClient.removeFromCart w1 itemId) ls))) =
  map without_car (persisted (stored_after (ApiClient.removeFromCart w1 itemId) ls)) /\
  ((forall item, In item (persisted ls) ->
      catalog w2 (CartItem.carId item) = catalog w1 (CartItem.carId item)) ->
   stored_after (ApiClient.removeFromCart w2 itemId)
     (stored_after (ApiClient.removeFromCart w1 itemId) ls) =
   stored_after (ApiClient.removeFromCart w1 itemId) ls).
Proof.
  intros Hr.
  assert (Hr1 : readable (stored_after (ApiClient.removeFromCart w1 itemId) ls))
    by (rewrite removeFromCart_once by assumption; discriminate).
  split; [unfold answer; now rewrite removeFromCart_readable|].
  split; [unfold answer; now rewrite removeFromCart_readable|].
  rewrite removeFromCart_twice, removeFromCart_once by assumption. cbn [persisted].
  split.
  - rewrite !map_map. apply map_ext. intros item.
    now rewrite !without_car_attachCar.
  - intros Hsame. do 2 f_equal. rewrite map_map. apply map_ext_in.
    intros item Hin. apply attachCar_again. apply Hsame.
    apply filter_In in Hin. tauto.
Qed.

Lemma removeFromCart_idempotent_witness :
  readable two_bare_items /\
  (forall item, In item (persisted two_bare_items) ->
     catalog (online 1700000000900) (CartItem.carId item)
     = catalog (online 1700000000700) (CartItem.carId item)) /\
  stored_after (ApiClient.removeFromCart (online 1700000000900) "1700000000000")
    (stored_after (ApiClient.removeFromCart (online 1700000000700) "1700000000000")
       two_bare_items)
  = stored_after (ApiClient.removeFromCart (online 1700000000700) "1700000000000")
      two_bare_items.
Proof.
  assert (Hr : readable two_bare_items) by (vm_compute; discriminate).
  assert (Hs : forall item, In item (persisted two_bare_items) ->
            catalog (online 1700000000900) (CartItem.carId item)
            = catalog (online 1700000000700) (CartItem.carId item))
    by (intros item _; reflexivity).
  split; [exact Hr|]. split; [exact Hs|].
  exact (proj2 (proj2 (proj2
    (removeFromCart_idempotent (online 1700000000700) (online 1700000000900)
       two_bare_items "1700000000000" Hr))) Hs).
Defined.

(** C10, as stated, fails for the item [updateCartItem] changes: its
    updates are spread over the enriched item, so a [car] key in them
    replaces the snapshot resolved during the call.  Here the catalog
    resolves product "A" to [granta], and the persisted item carries
    [vesta]. *)
Lemma updateCartItem_car_update_wins :
  reachable one_bare_item /\
  map CartItem._id (persisted one_bare_item) = ["1700000000000"] /\
  map CartItem.carId (persisted one_bare_item) = ["A"] /\
  catalog (online 1700000000900) "A" = Some granta /\
  map CartItem.car
    (persisted (stored_after
       (ApiClient.updateCartItem (online 1700000000900) "1700000000000" (only_car vesta))
       one_bare_item)) = [Some vesta] /\
  Some vesta <> Some granta.
Proof.
  split; [apply (reachable_step _ _ fresh); constructor|].
  repeat (split; [reflexivity|]).
  intros H. apply (f_equal (option_map Car._id)) in H. vm_compute in H. discriminate.
Qed.

(** C10, amended: [removeFromCart] and [updateCartItem] persist the
    sequence [getCartItems] returned to them, not the bare line items.
    After [removeFromCart(itemId)] the persisted value is that enriched
    sequence without the items carrying [itemId]; after a successful
    [updateCartItem(itemId, updates)] it is that enriched sequence with the
    first item carrying [itemId] replaced by itself with the updates spread
    over it, which keeps the item's snapshot unless the updates have a
    [car] key.  An enriched item carries the product resolved during the
    call; its [car] is absent only if the request for it failed, and an
    item whose request failed is written back as it was stored. *)
Theorem mutations_persist_enriched
  (w : World) (ls : localStorage) (itemId : string) (updates : Partial.t) :
  readable ls ->
  persisted (stored_after (ApiClient.removeFromCart w itemId) ls) =
    filter (other_than itemId) (map (ApiClient.attachCar w) (persisted ls)) /\
  (In itemId (map CartItem._id (persisted ls)) ->
   exists before item after,
     map (ApiClient.attachCar w) (persisted ls) = (before ++ item :: after)%list /\
     CartItem._id item = itemId /\
     (forall y, In y before -> CartItem._id y <> itemId) /\
     answer (ApiClient.updateCartItem w itemId updates) ls
       = Returned (spread item updates) /\
     persisted (stored_after (ApiClient.updateCartItem w itemId updates) ls)
       = (before ++ spread item updates :: after)%list /\
     (Partial.car updates = None ->
      CartItem.car (spread item updates) = CartItem.car item)) /\
  (forall item data,
     catalog w (CartItem.carId item) = Some data ->
     CartItem.car (ApiClient.attachCar w item) = Some data) /\
  (forall item,
     CartItem.car (ApiClient.attachCar w item) = None ->
     catalog w (CartItem.carId item) = None) /\
  (forall item,
     catalog w (CartItem.carId item) = None ->
     ApiClient.attachCar w item = item).
Proof.
  intros Hr. split; [|split; [|split; [|split]]]; [| | | |apply attachCar_failed].
  - unfold stored_after. now rewrite removeFromCart_readable.
  - intros Hin.
    destruct (updateCartItem_found w ls itemId updates Hr Hin)
      as (before & item & after & Hl & Hid & Hb & Hcall).
    exists before, item, after. unfold answer, stored_after. rewrite Hcall.
    repeat split; auto. intros Hc. simpl. now rewrite Hc.
  - intros item data H. now rewrite (attachCar_resolved w item data H).
  - intros item H. unfold ApiClient.attachCar, ApiClient.getCarById in H.
    destruct (catalog w (CartItem.carId item)); [discriminate|reflexivity].
Qed.

Lemma mutations_persist_enriched_witness :
  readable one_bare_item /\
  In "1700000000000" (map CartItem._id (persisted one_bare_item)) /\
  map CartItem.car
    (persisted (stored_after
       (ApiClient.updateCartItem (online 1700000000900) "1700000000000" (only_quantity 3))
       one_bare_item)) = [Some granta] /\
  map CartItem.car
    (persisted (stored_after
       (ApiClient.removeFromCart (online 1700000000900) "none")
       one_bare_item)) = [Some granta].
Proof.
  assert (Hr : readable one_bare_item) by (vm_compute; discriminate).
  assert (Hin : In "1700000000000" (map CartItem._id (persisted one_bare_item)))
    by (vm_compute; now left).
  split; [exact Hr|]. split; [exact Hin|].
  destruct (mutations_persist_enriched (online 1700000000900) one_bare_item
              "1700000000000" (only_quantity 3) Hr) as (_ & Hupdate & _).
  destruct (mutations_persist_enriched (online 1700000000900) one_bare_item
              "none" (only_quantity 3) Hr) as (Hremove & _).
  split.
  - destruct (Hupdate Hin) as (before & item & after & Hl & _ & _ & _ & -> & Hcar).
    rewrite map_app. cbn [map]. rewrite (Hcar eq_refl).
    change (map CartItem.car before ++ CartItem.car item :: map CartItem.car after)%list
      with (map CartItem.car before ++ map CartItem.car (item :: after))%list.
    rewrite <- map_app, <- Hl. reflexivity.
  - rewrite Hremove. reflexivity.
Defined.

(** ** Promo codes *)

Lemma lookup_unknown (code : string) (table : list (string * number)) :
  ~ In code (map fst table) -> Cart.lookup code table = None.
Proof.
  induction table as [|[key discount] rest IH]; simpl; intros Hn; [reflexivity|].
  destruct (key =? code)%string eqn:E.
  - apply String.eqb_eq in E. elim Hn. now left.
  - apply IH. intros Hin. apply Hn. now right.
Qed.

(** C8: with a selected subtotal of 1,000,000, applying the code "SAVE10"
    sets the discount factor 0.1, which gives the discount amount 100,000
    and the final total 900,000.  Applying a code that is not in
    [validCodes] changes neither the discount nor the selected subtotal,
    whatever the subtotal is: a discount of 0 stays 0, the discount amount is
    0 and the final total is the subtotal. *)
Theorem promo_code_applied (st : Cart.State) (code : string) :
  (Cart.selectedTotal st == 1000000 ->
   Cart.promoDiscount (Cart.handleApplyPromoCode (Cart.setPromoCode "SAVE10" st)) = 0.1 /\
   Cart.selectedTotal (Cart.handleApplyPromoCode (Cart.setPromoCode "SAVE10" st))
     == 1000000 /\
   Cart.discountAmount (Cart.handleApplyPromoCode (Cart.setPromoCode "SAVE10" st))
     == 100000 /\
   Cart.finalTotal (Cart.handleApplyPromoCode (Cart.setPromoCode "SAVE10" st))
     == 900000) /\
  (~ In code (map fst Cart.validCodes) ->
   Cart.promoDiscount (Cart.handleApplyPromoCode (Cart.setPromoCode code st))
     = Cart.promoDiscount st /\
   Cart.selectedTotal (Cart.handleApplyPromoCode (Cart.setPromoCode code st))
     = Cart.selectedTotal st /\
   Cart.toasts (Cart.handleApplyPromoCode (Cart.setPromoCode code st))
     = (Cart.toasts st ++ [Cart.PromoRejected])%list /\
   (Cart.promoDiscount st == 0 ->
    Cart.promoDiscount (Cart.handleApplyPromoCode (Cart.setPromoCode code st)) == 0 /\
    Cart.discountAmount (Cart.handleApplyPromoCode (Cart.setPromoCode code st)) == 0 /\
    Cart.finalTotal (Cart.handleApplyPromoCode (Cart.setPromoCode code st))
      == Cart.selectedTotal st)).
Proof.
  split.
  - intros Htotal.
    assert (Hsame : Cart.selectedTotal
                      (Cart.handleApplyPromoCode (Cart.setPromoCode "SAVE10" st))
                    = Cart.selectedTotal st) by reflexivity.
    unfold Cart.finalTotal, Cart.discountAmount. rewrite Hsame, Htotal.
    split; [reflexivity|]. split; [reflexivity|]. split; reflexivity.
  - intros Hunknown.
    assert (Hst : Cart.handleApplyPromoCode (Cart.setPromoCode code st) =
                  {| Cart.cartItems := Cart.cartItems st;
                     Cart.selectedItems := Cart.selectedItems st;
                     Cart.promoCode := code;
                     Cart.promoDiscount := Cart.promoDiscount st;
                     Cart.toasts := (Cart.toasts st ++ [Cart.PromoRejected])%list |}).
    { unfold Cart.handleApplyPromoCode. cbn [Cart.promoCode Cart.setPromoCode].
      now rewrite (lookup_unknown code Cart.validCodes Hunknown). }
    rewrite Hst. split; [reflexivity|]. split; [reflexivity|]. split; [reflexivity|].
    intros H. split; [exact H|]. split.
    + unfold Cart.discountAmount. cbn [Cart.promoDiscount].
      generalize (Cart.selectedTotal
                    {| Cart.cartItems := Cart.cartItems st;
                       Cart.selectedItems := Cart.selectedItems st;
                       Cart.promoCode := code;
                       Cart.promoDiscount := Cart.promoDiscount st;
                       Cart.toasts := (Cart.toasts st ++ [Cart.PromoRejected])%list |}).
      intros subtotal. rewrite H. ring.
    + unfold Cart.finalTotal, Cart.discountAmount. cbn [Cart.promoDiscount].
      change (Cart.selectedTotal
                {| Cart.cartItems := Cart.cartItems st;
                   Cart.selectedItems := Cart.selectedItems st;
                   Cart.promoCode := code;
                   Cart.promoDiscount := Cart.promoDiscount st;
                   Cart.toasts := (Cart.toasts st ++ [Cart.PromoRejected])%list |})
        with (Cart.selectedTotal st).
      generalize (Cart.selectedTotal st). intros subtotal. rewrite H. ring.
Qed.

Lemma promo_code_applied_witness :
  Cart.selectedTotal (Cart.initial (persisted two_grantas)) == 1000000 /\
  ~ In "WELCOME5" (map fst Cart.validCodes) /\
  Cart.promoDiscount (Cart.initial (persisted two_grantas)) == 0 /\
  Cart.discountAmount
    (Cart.handleApplyPromoCode
       (Cart.setPromoCode "SAVE10" (Cart.initial (persisted two_grantas)))) == 100000 /\
  Cart.finalTotal
    (Cart.handleApplyPromoCode
       (Cart.setPromoCode "SAVE10" (Cart.initial (persisted two_grantas)))) == 900000 /\
  Cart.finalTotal
    (Cart.handleApplyPromoCode
       (Cart.setPromoCode "WELCOME5" (Cart.initial (persisted two_grantas)))) == 1000000.
Proof.
  assert (Ht : Cart.selectedTotal (Cart.initial (persisted two_grantas)) == 1000000)
    by reflexivity.
  assert (Hu : ~ In "WELCOME5" (map fst Cart.validCodes))
    by (simpl; intros [H|[H|[H|[]]]]; discriminate).
  assert (Hz : Cart.promoDiscount (Cart.initial (persisted two_grantas)) == 0)
    by reflexivity.
  destruct (promo_code_applied (Cart.initial (persisted two_grantas)) "WELCOME5")
    as [Hsave Hother].
  destruct (Hsave Ht) as (_ & _ & Hd & Hf).
  destruct (Hother Hu) as (_ & _ & _ & Hzero).
  destruct (Hzero Hz) as (_ & _ & Hfinal).
  split; [exact Ht|]. split; [exact Hu|]. split; [exact Hz|].
  split; [exact Hd|]. split; [exact Hf|].
  now rewrite Hfinal.
Defined.

(** ** The financing calculator *)








(** * Further properties of the cart client *)

(** ** Failing calls *)



(** The cart methods never leave a value they cannot read: in every store
    reachable from a fresh one, whatever the calls and their arguments,
    [getCartItems] and [getCartTotal] return, and write nothing. *)
Theorem reachable_cart_reads (w : World) (ls : localStorage) :
  reachable ls ->
  exists items amount,
    ApiClient.getCartItems w ls = (Returned items, ls) /\
    ApiClient.getCartTotal w ls = (Returned amount, ls).
Proof.
  intros H. apply reachable_readable in H.
  exists (map (ApiClient.attachCar w) (persisted ls)).
  unfold ApiClient.getCartTotal, bind. rewrite (getCartItems_readable w ls H).
  eexists. split; reflexivity.
Qed.

Lemma reachable_cart_reads_witness :
  reachable (run add_B_as_A fresh) /\
  exists items amount,
    ApiClient.getCartItems (offline 1700000000900) (run add_B_as_A fresh)
      = (Returned items, run add_B_as_A fresh) /\
    ApiClient.getCartTotal (offline 1700000000900) (run add_B_as_A fresh)
      = (Returned amount, run add_B_as_A fresh).
Proof.
  assert (H : reachable (run add_B_as_A fresh)) by (apply run_reachable; constructor).
  split; [exact H|].
  exact (reachable_cart_reads (offline 1700000000900) (run add_B_as_A fresh) H).
Defined.

(** ** Identifiers under update and removal *)

Lemma filter_map_id (itemId : string) (items : list CartItem.t) :
  map CartItem._id (filter (other_than itemId) items) =
  filter (fun id => negb (id =? itemId)%string) (map CartItem._id items).
Proof.
  induction items as [|x rest IH]; simpl; [reflexivity|].
  unfold other_than at 1. destruct (negb (CartItem._id x =? itemId)%string);
    simpl; now rewrite IH.
Qed.

(** [updateCartItem] with an identifier no stored item carries throws the
    not-found error and leaves the store as it was.  Unless the updates set
    [_id], the call keeps the sequence of item identifiers, hence the number
    and order of the line items, whether it succeeds or not. *)
Theorem updateCartItem_keeps_identifiers
  (w : World) (ls : localStorage) (itemId : string) (updates : Partial.t) :
  readable ls ->
  (~ In itemId (map CartItem._id (persisted ls)) ->
   ApiClient.updateCartItem w itemId updates ls = (Thrown ItemNotFound, ls)) /\
  (Partial._id updates = None ->
   map CartItem._id (persisted (stored_after (ApiClient.updateCartItem w itemId updates) ls))
   = map CartItem._id (persisted ls)).
Proof.
  intros Hr. split.
  - now apply updateCartItem_missing.
  - intros Hid. unfold stored_after.
    destruct (in_dec string_dec itemId (map CartItem._id (persisted ls))) as [Hin|Hn].
    + destruct (updateCartItem_found w ls itemId updates Hr Hin)
        as (before & item & after & Hl & _ & _ & ->). cbn [snd persisted].
      rewrite <- (map_id_attachCar w (persisted ls)), Hl, !map_app. cbn [map].
      simpl CartItem._id. now rewrite Hid.
    + now rewrite updateCartItem_missing.
Qed.

Lemma updateCartItem_keeps_identifiers_witness :
  readable two_bare_items /\
  ~ In "42" (map CartItem._id (persisted two_bare_items)) /\
  Partial._id (only_quantity 3) = None /\
  ApiClient.updateCartItem (online 1700000000900) "42" (only_quantity 3) two_bare_items
    = (Thrown ItemNotFound, two_bare_items) /\
  map CartItem._id
    (persisted (stored_after
       (ApiClient.updateCartItem (online 1700000000900) "1700000000500" (only_quantity 3))
       two_bare_items))
  = ["1700000000000"; "1700000000500"].
Proof.
  assert (Hr : readable two_bare_items) by (vm_compute; discriminate).
  assert (Hn : ~ In "42" (map CartItem._id (persisted two_bare_items)))
    by (vm_compute; intros [H|[H|[]]]; discriminate).
  split; [exact Hr|]. split; [exact Hn|]. split; [reflexivity|]. split.
  - exact (proj1 (updateCartItem_keeps_identifiers (online 1700000000900) two_bare_items
                    "42" (only_quantity 3) Hr) Hn).
  - rewrite (proj2 (updateCartItem_keeps_identifiers (online 1700000000900) two_bare_items
                      "1700000000500" (only_quantity 3) Hr) eq_refl).
    reflexivity.
Defined.

(** [removeFromCart(itemId)] removes every line item that carries the
    identifier, not only the first, and keeps the others in their order:
    afterwards no stored item carries it. *)
Theorem removeFromCart_removes_every_match
  (w : World) (ls : localStorage) (itemId : string) :
  readable ls ->
  map CartItem._id (persisted (stored_after (ApiClient.removeFromCart w itemId) ls))
  = filter (fun id => negb (id =? itemId)%string) (map CartItem._id (persisted ls)) /\
  ~ In itemId
      (map CartItem._id (persisted (stored_after (ApiClient.removeFromCart w itemId) ls))).
Proof.
  intros Hr.
  assert (E : map CartItem._id
                (persisted (stored_after (ApiClient.removeFromCart w itemId) ls))
              = filter (fun id => negb (id =? itemId)%string)
                  (map CartItem._id (persisted ls))).
  { rewrite removeFromCart_once by assumption. cbn [persisted].
    now rewrite map_id_attachCar, filter_map_id. }
  split; [exact E|]. rewrite E. intros Hin.
  apply filter_In in Hin as [_ Hne]. now rewrite String.eqb_refl in Hne.
Qed.

Lemma removeFromCart_removes_every_match_witness :
  readable two_bare_items /\
  map CartItem._id
    (persisted (stored_after (ApiClient.removeFromCart (online 1700000000900) "1700000000000")
                  two_bare_items))
  = ["1700000000500"].
Proof.
  assert (Hr : readable two_bare_items) by (vm_compute; discriminate).
  split; [exact Hr|].
  rewrite (proj1 (removeFromCart_removes_every_match (online 1700000000900)
                    two_bare_items "1700000000000" Hr)).
  reflexivity.
Defined.

(** ** Adding and removing again *)

Lemma filter_all_kept {A : Type} (keep : A -> bool) (l : list A) :
  (forall x, In x l -> keep x = true) -> filter keep l = l.
Proof.
  induction l as [|x rest IH]; simpl; intros H; [reflexivity|].
  rewrite (H x) by now left. f_equal. apply IH. intros y Hy. apply H. now right.
Qed.

Lemma other_than_unused (itemId : string) (items : list CartItem.t) :
  ~ In itemId (map CartItem._id items) ->
  filter (other_than itemId) items = items.
Proof.
  intros Hn. apply filter_all_kept. intros x Hx. unfold other_than.
  apply negb_true_iff, String.eqb_neq. intros E. apply Hn. rewrite <- E.
  now apply in_map.
Qed.

Lemma map_without_car_attachCar (w : World) (items : list CartItem.t) :
  map without_car (map (ApiClient.attachCar w) items) = map without_car items.
Proof.
  rewrite map_map. apply map_ext. apply without_car_attachCar.
Qed.

(** Removing the line item a successful [addToCart] has just made gives the
    cart its previous line items back, in their order and up to the product
    snapshots attached on the way, provided no earlier item carries the
    identifier of the new one. *)
Theorem add_then_remove_restores
  (w1 w2 : World) (ls : localStorage) (P : string) (options : option Partial.t) :
  readable ls ->
  ~ In P (map CartItem.carId (persisted ls)) ->
  ~ In (CartItem._id (spread_optional (defaultItem w1 P) options))
       (map CartItem._id (persisted ls)) ->
  map without_car
    (persisted
       (stored_after
          (ApiClient.removeFromCart w2
             (CartItem._id (spread_optional (defaultItem w1 P) options)))
          (stored_after (ApiClient.addToCart w1 P options) ls)))
  = map without_car (persisted ls).
Proof.
  intros Hr HP Hid. unfold stored_after at 2.
  rewrite addToCart_absent by assumption. cbn [snd].
  rewrite removeFromCart_once by discriminate. cbn [persisted].
  rewrite filter_app. cbn [filter]. unfold other_than at 2.
  rewrite String.eqb_refl. cbn [negb].
  rewrite app_nil_r, other_than_unused by now rewrite map_id_attachCar.
  now rewrite !map_without_car_attachCar.
Qed.

Lemma add_then_remove_restores_witness :
  readable one_bare_item /\
  ~ In "B" (map CartItem.carId (persisted one_bare_item)) /\
  ~ In (CartItem._id (spread_optional (defaultItem (online 1700000000500) "B") None))
       (map CartItem._id (persisted one_bare_item)) /\
  map without_car
    (persisted
       (stored_after
          (ApiClient.removeFromCart (online 1700000000900) "1700000000500")
          (stored_after (ApiClient.addToCart (online 1700000000500) "B" None)
             one_bare_item)))
  = map without_car (persisted one_bare_item).
Proof.
  assert (Hr : readable one_bare_item) by (vm_compute; discriminate).
  assert (HP : ~ In "B" (map CartItem.carId (persisted one_bare_item)))
    by (vm_compute; intros [H|[]]; discriminate).
  assert (Hid : ~ In (CartItem._id
                        (spread_optional (defaultItem (online 1700000000500) "B") None))
                     (map CartItem._id (persisted one_bare_item)))
    by (vm_compute; intros [H|[]]; discriminate).
  split; [exact Hr|]. split; [exact HP|]. split; [exact Hid|].
  exact (add_then_remove_restores (online 1700000000500) (online 1700000000900)
           one_bare_item "B" None Hr HP Hid).
Defined.

Lemma count_product_filter_absent
  (P : string) (keep : CartItem.t -> bool) (items : list CartItem.t) :
  ~ In P (map CartItem.carId items) ->
  count_product P (filter keep items) = 0%nat.
Proof.
  intros Hn. apply count_product_absent. intros Hin. apply Hn.
  apply in_map_iff in Hin as (x & <- & Hx). apply filter_In in Hx as [Hx _].
  now apply in_map.
Qed.

(** Identifiers are [Date.now().toString()]: two products added within the
    same millisecond get the same [_id].  Both are in the cart, one line
    item each; [removeFromCart] with that identifier then removes both. *)
Theorem same_millisecond_same_identifier
  (w1 w2 w3 : World) (ls : localStorage) (P Q : string) :
  readable ls ->
  ~ In P (map CartItem.carId (persisted ls)) ->
  ~ In Q (map CartItem.carId (persisted ls)) ->
  P <> Q ->
  Date_now w2 = Date_now w1 ->
  count_product P
    (persisted (stored_after (ApiClient.addToCart w2 Q None)
                  (stored_after (ApiClient.addToCart w1 P None) ls))) = 1%nat /\
  count_product Q
    (persisted (stored_after (ApiClient.addToCart w2 Q None)
                  (stored_after (ApiClient.addToCart w1 P None) ls))) = 1%nat /\
  count_product P
    (persisted
       (stored_after (ApiClient.removeFromCart w3 (toString (Date_now w1)))
          (stored_after (ApiClient.addToCart w2 Q None)
             (stored_after (ApiClient.addToCart w1 P None) ls)))) = 0%nat /\
  count_product Q
    (persisted
       (stored_after (ApiClient.removeFromCart w3 (toString (Date_now w1)))
          (stored_after (ApiClient.addToCart w2 Q None)
             (stored_after (ApiClient.addToCart w1 P None) ls)))) = 0%nat.
Proof.
  intros Hr HP HQ Hne Hnow.
  assert (E1 : stored_after (ApiClient.addToCart w1 P None) ls
               = Some (Serialized (map (ApiClient.attachCar w1) (persisted ls)
                                     ++ [defaultItem w1 P])%list)).
  { unfold stored_after. now rewrite addToCart_absent. }
  assert (HQ1 : ~ In Q (map CartItem.carId
                          (map (ApiClient.attachCar w1) (persisted ls)
                             ++ [defaultItem w1 P])%list)).
  { rewrite map_app, map_carId_attachCar. intros Hin.
    apply in_app_or in Hin as [Hin|[Hin|[]]]; [now apply HQ|]. now apply Hne. }
  assert (E2 : stored_after (ApiClient.addToCart w2 Q None)
                 (stored_after (ApiClient.addToCart w1 P None) ls)
               = Some (Serialized
                         (map (ApiClient.attachCar w2)
                            (map (ApiClient.attachCar w1) (persisted ls)
                               ++ [defaultItem w1 P])
                          ++ [defaultItem w2 Q])%list)).
  { rewrite E1. unfold stored_after. now rewrite addToCart_absent by (discriminate || exact HQ1). }
  rewrite E2. cbn [persisted].
  assert (HP0 : count_product P (map (ApiClient.attachCar w1) (persisted ls)) = 0%nat)
    by (rewrite count_product_attachCar; now apply count_product_absent).
  assert (HQ0 : count_product Q (map (ApiClient.attachCar w1) (persisted ls)) = 0%nat)
    by (rewrite count_product_attachCar; now apply count_product_absent).
  assert (HPP : count_product P [defaultItem w1 P] = 1%nat)
    by (unfold count_product; simpl; now rewrite String.eqb_refl).
  assert (HQQ : count_product Q [defaultItem w2 Q] = 1%nat)
    by (unfold count_product; simpl; now rewrite String.eqb_refl).
  assert (HPQ : count_product P [defaultItem w2 Q] = 0%nat).
  { unfold count_product. simpl. destruct (Q =? P)%string eqn:E; [|reflexivity].
    apply String.eqb_eq in E. now elim Hne. }
  assert (HQP : count_product Q [defaultItem w1 P] = 0%nat).
  { unfold count_product. simpl. destruct (P =? Q)%string eqn:E; [|reflexivity].
    apply String.eqb_eq in E. now elim Hne. }
  split; [|split].
  - rewrite count_product_app, count_product_attachCar, count_product_app.
    now rewrite HP0, HPP, HPQ.
  - rewrite count_product_app, count_product_attachCar, count_product_app.
    now rewrite HQ0, HQP, HQQ.
  - rewrite removeFromCart_once by discriminate. cbn [persisted].
    rewrite !count_product_attachCar.
    rewrite filter_app, map_app, filter_app. cbn [map filter].
    assert (K1 : other_than (toString (Date_now w1))
                   (ApiClient.attachCar w2 (defaultItem w1 P)) = false)
      by (unfold other_than; rewrite attachCar_id; simpl; now rewrite String.eqb_refl).
    assert (K2 : other_than (toString (Date_now w1)) (defaultItem w2 Q) = false)
      by (unfold other_than; simpl; now rewrite Hnow, String.eqb_refl).
    rewrite K1, K2, !app_nil_r.
    split; apply count_product_filter_absent; now rewrite !map_carId_attachCar.
Qed.

Lemma same_millisecond_same_identifier_witness :
  readable fresh /\
  ~ In "A" (map CartItem.carId (persisted fresh)) /\
  ~ In "B" (map CartItem.carId (persisted fresh)) /\
  "A" <> "B" /\
  Date_now (offline 1700000000000) = Date_now (online 1700000000000) /\
  count_product "A"
    (persisted
       (stored_after (ApiClient.removeFromCart (online 1700000000900)
                        (toString (Date_now (online 1700000000000))))
          (stored_after (ApiClient.addToCart (offline 1700000000000) "B" None)
             (stored_after (ApiClient.addToCart (online 1700000000000) "A" None) fresh))))
  = 0%nat /\
  count_product "B"
    (persisted
       (stored_after (ApiClient.removeFromCart (online 1700000000900)
                        (toString (Date_now (online 1700000000000))))
          (stored_after (ApiClient.addToCart (offline 1700000000000) "B" None)
             (stored_after (ApiClient.addToCart (online 1700000000000) "A" None) fresh))))
  = 0%nat.
Proof.
  assert (Hr : readable fresh) by discriminate.
  assert (HA : ~ In "A" (map CartItem.carId (persisted fresh))) by (intros []).
  assert (HB : ~ In "B" (map CartItem.carId (persisted fresh))) by (intros []).
  assert (Hne : "A" <> "B") by discriminate.
  assert (Hnow : Date_now (offline 1700000000000) = Date_now (online 1700000000000))
    by reflexivity.
  split; [exact Hr|]. split; [exact HA|]. split; [exact HB|].
  split; [exact Hne|]. split; [exact Hnow|].
  exact (proj2 (proj2 (same_millisecond_same_identifier (online 1700000000000)
                         (offline 1700000000000) (online 1700000000900) fresh "A" "B"
                         Hr HA HB Hne Hnow))).
Defined.

(** * The cart hook *)

(** A client call that throws has written nothing. *)
Lemma addToCart_thrown (w : World) (P : string) (options : option Partial.t)
  (ls ls1 : localStorage) (e : exn) :
  ApiClient.addToCart w P options ls = (Thrown e, ls1) -> ls1 = ls.
Proof.
  destruct ls as [[items| |]|]; try (intros H; now inversion H).
  - destruct (in_dec string_dec P (map CartItem.carId (persisted (Some (Serialized items)))))
      as [Hin|Hn].
    + rewrite addToCart_present by assumption. intros H. now inversion H.
    + rewrite addToCart_absent by (discriminate || assumption). discriminate.
Qed.

Lemma updateCartItem_thrown (w : World) (itemId : string) (updates : Partial.t)
  (ls ls1 : localStorage) (e : exn) :
  ApiClient.updateCartItem w itemId updates ls = (Thrown e, ls1) -> ls1 = ls.
Proof.
  destruct ls as [[items| |]|]; try (intros H; now inversion H).
  destruct (in_dec string_dec itemId (map CartItem._id (persisted (Some (Serialized items)))))
    as [Hin|Hn].
  - destruct (updateCartItem_found w (Some (Serialized items)) itemId updates) as
      (before & item & after & _ & _ & _ & ->); [discriminate|assumption|discriminate].
  - rewrite updateCartItem_missing by (discriminate || assumption).
    intros H. now inversion H.
Qed.

Lemma removeFromCart_thrown (w : World) (itemId : string)
  (ls ls1 : localStorage) (e : exn) :
  ApiClient.removeFromCart w itemId ls = (Thrown e, ls1) -> ls1 = ls.
Proof.
  destruct ls as [[items| |]|]; intros H; now inversion H.
Qed.

Lemma getCartTotal_readable (w : World) (ls : localStorage) :
  readable ls ->
  exists amount,
    ApiClient.getCartTotal w ls = (Returned amount, ls) /\
    amount == total_of (map (resolvedOrStoredAmount w) (persisted ls)).
Proof.
  intros Hr. unfold ApiClient.getCartTotal, bind.
  rewrite (getCartItems_readable w ls Hr). eexists. split; [reflexivity|].
  rewrite reduce_total, map_map.
  rewrite (map_ext _ _ (attachedAmount_attachCar w)). ring.
Qed.

Lemma loadCart_loading (w1 w2 : World) (st : useCart.State) (ls : localStorage) :
  useCart.loading (fst (useCart.loadCart w1 w2 st ls)) = false.
Proof.
  unfold useCart.loadCart.
  destruct (ApiClient.getCartItems w1 ls) as [[items|e] ls1]; [|reflexivity].
  now destruct (ApiClient.getCartTotal w2 ls1) as [[amount|e] ls2].
Qed.

(** Every action of the hook ends with [loading] false: after a reload, an
    add, an update, a removal or a clear, whether the client call returned or
    threw. *)
Theorem useCart_releases_loading
  (w0 w1 w2 : World) (id : string) (options : option Partial.t) (updates : Partial.t)
  (st : useCart.State) (ls : localStorage) :
  useCart.loading (fst (useCart.loadCart w1 w2 st ls)) = false /\
  useCart.loading (snd (fst (useCart.addToCart w0 w1 w2 id options st ls))) = false /\
  useCart.loading (fst (useCart.updateCartItem w0 w1 w2 id updates st ls)) = false /\
  useCart.loading (fst (useCart.removeFromCart w0 w1 w2 id st ls)) = false /\
  useCart.loading (fst (useCart.clearCart st ls)) = false.
Proof.
  split; [apply loadCart_loading|]. split; [|split; [|split]].
  - unfold useCart.addToCart.
    destruct (ApiClient.addToCart w0 id options ls) as [[newItem|e] ls1]; [|reflexivity].
    now destruct (useCart.loadCart w1 w2 _ ls1).
  - unfold useCart.updateCartItem.
    destruct (ApiClient.updateCartItem w0 id updates ls) as [[item|e] ls1]; [|reflexivity].
    now destruct (useCart.loadCart w1 w2 _ ls1).
  - unfold useCart.removeFromCart.
    destruct (ApiClient.removeFromCart w0 id ls) as [[u|e] ls1]; [|reflexivity].
    now destruct (useCart.loadCart w1 w2 _ ls1).
  - reflexivity.
Qed.

(** A failed action of the hook is contained: when the client call throws,
    the store, the shown items and the total stay as they were and one
    failure notification is added.  [addToCart] throws the error again;
    [updateCartItem] and [removeFromCart] return. *)
Theorem useCart_failure_contained
  (w0 w1 w2 : World) (id : string) (options : option Partial.t) (updates : Partial.t)
  (st : useCart.State) (ls ls1 : localStorage) (e : exn) :
  (ApiClient.addToCart w0 id options ls = (Thrown e, ls1) ->
   useCart.addToCart w0 w1 w2 id options st ls =
   (Thrown e,
    {| useCart.cartItems := useCart.cartItems st; useCart.loading := false;
       useCart.total := useCart.total st;
       useCart.toasts := (useCart.toasts st ++ [useCart.AddFailed e])%list |},
    ls)) /\
  (ApiClient.updateCartItem w0 id updates ls = (Thrown e, ls1) ->
   useCart.updateCartItem w0 w1 w2 id updates st ls =
   ({| useCart.cartItems := useCart.cartItems st; useCart.loading := false;
       useCart.total := useCart.total st;
       useCart.toasts := (useCart.toasts st ++ [useCart.UpdateFailed e])%list |},
    ls)) /\
  (ApiClient.removeFromCart w0 id ls = (Thrown e, ls1) ->
   useCart.removeFromCart w0 w1 w2 id st ls =
   ({| useCart.cartItems := useCart.cartItems st; useCart.loading := false;
       useCart.total := useCart.total st;
       useCart.toasts := (useCart.toasts st ++ [useCart.RemoveFailed e])%list |},
    ls)).
Proof.
  split; [|split]; intros H.
  - unfold useCart.addToCart. rewrite H.
    now rewrite (addToCart_thrown _ _ _ _ _ _ H).
  - unfold useCart.updateCartItem. rewrite H.
    now rewrite (updateCartItem_thrown _ _ _ _ _ _ H).
  - unfold useCart.removeFromCart. rewrite H.
    now rewrite (removeFromCart_thrown _ _ _ _ _ H).
Qed.

Lemma useCart_failure_contained_witness :
  ApiClient.addToCart (online 1700000000500) "A" None one_bare_item
    = (Thrown DuplicateItem, one_bare_item) /\
  useCart.addToCart (online 1700000000500) (online 1700000000600) (online 1700000000700)
    "A" None useCart.initial one_bare_item =
  (Thrown DuplicateItem,
   {| useCart.cartItems := []; useCart.loading := false; useCart.total := 0;
      useCart.toasts := [useCart.AddFailed DuplicateItem] |},
   one_bare_item) /\
  ApiClient.updateCartItem (online 1700000000500) "42" (only_quantity 2) one_bare_item
    = (Thrown ItemNotFound, one_bare_item) /\
  useCart.updateCartItem (online 1700000000500) (online 1700000000600)
    (online 1700000000700) "42" (only_quantity 2) useCart.initial one_bare_item =
  ({| useCart.cartItems := []; useCart.loading := false; useCart.total := 0;
      useCart.toasts := [useCart.UpdateFailed ItemNotFound] |},
   one_bare_item).
Proof.
  assert (Ha : ApiClient.addToCart (online 1700000000500) "A" None one_bare_item
               = (Thrown DuplicateItem, one_bare_item)) by reflexivity.
  assert (Hu : ApiClient.updateCartItem (online 1700000000500) "42" (only_quantity 2)
                 one_bare_item = (Thrown ItemNotFound, one_bare_item)) by reflexivity.
  split; [exact Ha|]. split.
  - exact (proj1 (useCart_failure_contained (online 1700000000500) (online 1700000000600)
                    (online 1700000000700) "A" None (only_quantity 2) useCart.initial
                    one_bare_item one_bare_item DuplicateItem) Ha).
  - split; [exact Hu|].
    exact (proj1 (proj2 (useCart_failure_contained (online 1700000000500)
                           (online 1700000000600) (online 1700000000700) "42" None
                           (only_quantity 2) useCart.initial one_bare_item one_bare_item
                           ItemNotFound)) Hu).
Defined.

Lemma loadCart_readable (w1 w2 : World) (st : useCart.State) (ls : localStorage) :
  readable ls ->
  exists amount,
    useCart.loadCart w1 w2 st ls =
    ({| useCart.cartItems := map (ApiClient.attachCar w1) (persisted ls);
        useCart.loading := false;
        useCart.total := amount;
        useCart.toasts := useCart.toasts st |}, ls) /\
    amount == total_of (map (resolvedOrStoredAmount w2) (persisted ls)).
Proof.
  intros Hr. destruct (getCartTotal_readable w2 ls Hr) as (amount & Hcall & Hsum).
  exists amount. split; [|exact Hsum].
  unfold useCart.loadCart. rewrite (getCartItems_readable w1 ls Hr), Hcall.
  reflexivity.
Qed.

Lemma resolvedOrStored_agree (w1 w2 : World) (item : CartItem.t) :
  catalog w2 (CartItem.carId item) = catalog w1 (CartItem.carId item) ->
  resolvedOrStoredAmount w2 item = attachedAmount (ApiClient.attachCar w1 item).
Proof.
  intros H. rewrite attachedAmount_attachCar. unfold resolvedOrStoredAmount. now rewrite H.
Qed.

(** On a store the client can read, [loadCart] never fails: it shows the
    stored line items, each with the product the catalog resolved for it in
    the first call, keeps the notifications and the store, and sets [total]
    to what the second call computed.  The total is the sum over the shown
    items when the catalog answers the second call as the first; the two
    calls ask the catalog separately. *)
Theorem useCart_reload_mirrors_store
  (w1 w2 : World) (st : useCart.State) (ls : localStorage) :
  readable ls ->
  snd (useCart.loadCart w1 w2 st ls) = ls /\
  useCart.cartItems (fst (useCart.loadCart w1 w2 st ls))
    = map (ApiClient.attachCar w1) (persisted ls) /\
  useCart.toasts (fst (useCart.loadCart w1 w2 st ls)) = useCart.toasts st /\
  useCart.total (fst (useCart.loadCart w1 w2 st ls))
    == total_of (map (resolvedOrStoredAmount w2) (persisted ls)) /\
  ((forall item, In item (persisted ls) ->
      catalog w2 (CartItem.carId item) = catalog w1 (CartItem.carId item)) ->
   useCart.total (fst (useCart.loadCart w1 w2 st ls))
     == total_of (map attachedAmount
                    (useCart.cartItems (fst (useCart.loadCart w1 w2 st ls))))).
Proof.
  intros Hr. destruct (loadCart_readable w1 w2 st ls Hr) as (amount & -> & Hsum).
  cbn [fst snd useCart.cartItems useCart.toasts useCart.total].
  repeat (split; [reflexivity|]). split; [exact Hsum|].
  intros Hsame. rewrite Hsum, map_map.
  rewrite (map_ext_in _ _ _ (fun item Hin => resolvedOrStored_agree w1 w2 item (Hsame item Hin))).
  reflexivity.
Qed.

Lemma useCart_reload_mirrors_store_witness :
  readable two_grantas /\
  (forall item, In item (persisted two_grantas) ->
     catalog (online 1700000000950) (CartItem.carId item)
     = catalog (online 1700000000900) (CartItem.carId item)) /\
  useCart.total
    (fst (useCart.mount (online 1700000000900) (online 1700000000950) two_grantas))
  == 1000000.
Proof.
  assert (Hr : readable two_grantas) by (vm_compute; discriminate).
  assert (Hs : forall item, In item (persisted two_grantas) ->
            catalog (online 1700000000950) (CartItem.carId item)
            = catalog (online 1700000000900) (CartItem.carId item))
    by (intros item _; reflexivity).
  split; [exact Hr|]. split; [exact Hs|].
  unfold useCart.mount.
  rewrite (proj2 (proj2 (proj2 (proj2
            (useCart_reload_mirrors_store (online 1700000000900) (online 1700000000950)
               useCart.initial two_grantas Hr)))) Hs).
  reflexivity.
Defined.

(** A successful mutation through the hook writes what the client call
    writes and then shows the reloaded store: the shown items are the items
    stored after the call, enriched by the reload, and one success
    notification is added.  This holds for adding a product that is not in
    the cart, for updating an item that is, and for every removal. *)
Theorem useCart_mutation_shows_store
  (w0 w1 w2 : World) (P itemId : string) (options : option Partial.t)
  (updates : Partial.t) (st : useCart.State) (ls : localStorage) :
  readable ls ->
  (~ In P (map CartItem.carId (persisted ls)) ->
   snd (useCart.addToCart w0 w1 w2 P options st ls)
     = stored_after (ApiClient.addToCart w0 P options) ls /\
   fst (fst (useCart.addToCart w0 w1 w2 P options st ls))
     = answer (ApiClient.addToCart w0 P options) ls /\
   useCart.cartItems (snd (fst (useCart.addToCart w0 w1 w2 P options st ls)))
     = map (ApiClient.attachCar w1)
         (persisted (stored_after (ApiClient.addToCart w0 P options) ls)) /\
   useCart.toasts (snd (fst (useCart.addToCart w0 w1 w2 P options st ls)))
     = (useCart.toasts st ++ [useCart.Added])%list) /\
  (In itemId (map CartItem._id (persisted ls)) ->
   snd (useCart.updateCartItem w0 w1 w2 itemId updates st ls)
     = stored_after (ApiClient.updateCartItem w0 itemId updates) ls /\
   useCart.cartItems (fst (useCart.updateCartItem w0 w1 w2 itemId updates st ls))
     = map (ApiClient.attachCar w1)
         (persisted (stored_after (ApiClient.updateCartItem w0 itemId updates) ls)) /\
   useCart.toasts (fst (useCart.updateCartItem w0 w1 w2 itemId updates st ls))
     = (useCart.toasts st ++ [useCart.Updated])%list) /\
  (snd (useCart.removeFromCart w0 w1 w2 itemId st ls)
     = stored_after (ApiClient.removeFromCart w0 itemId) ls /\
   useCart.cartItems (fst (useCart.removeFromCart w0 w1 w2 itemId st ls))
     = map (ApiClient.attachCar w1)
         (persisted (stored_after (ApiClient.removeFromCart w0 itemId) ls)) /\
   useCart.toasts (fst (useCart.removeFromCart w0 w1 w2 itemId st ls))
     = (useCart.toasts st ++ [useCart.Removed])%list).
Proof.
  intros Hr. split; [|split].
  - intros HP. unfold useCart.addToCart, stored_after, answer.
    rewrite addToCart_absent by assumption. cbn [fst snd].
    destruct (loadCart_readable w1 w2 (useCart.setLoading true st)
                (Some (Serialized (map (ApiClient.attachCar w0) (persisted ls)
                                     ++ [spread_optional (defaultItem w0 P) options])%list)))
      as (amount & -> & _); [discriminate|].
    repeat split.
  - intros Hin. unfold useCart.updateCartItem, stored_after.
    destruct (updateCartItem_found w0 ls itemId updates Hr Hin)
      as (before & item & after & _ & _ & _ & ->). cbn [fst snd].
    destruct (loadCart_readable w1 w2 (useCart.setLoading true st)
                (Some (Serialized (before ++ spread item updates :: after)%list)))
      as (amount & -> & _); [discriminate|].
    repeat split.
  - unfold useCart.removeFromCart, stored_after.
    rewrite removeFromCart_readable by assumption. cbn [fst snd].
    destruct (loadCart_readable w1 w2 (useCart.setLoading true st)
                (Some (Serialized (filter (other_than itemId)
                                     (map (ApiClient.attachCar w0) (persisted ls))))))
      as (amount & -> & _); [discriminate|].
    repeat split.
Qed.

Lemma useCart_mutation_shows_store_witness :
  readable one_bare_item /\
  ~ In "B" (map CartItem.carId (persisted one_bare_item)) /\
  In "1700000000000" (map CartItem._id (persisted one_bare_item)) /\
  map CartItem.carId
    (useCart.cartItems
       (snd (fst (useCart.addToCart (online 1700000000500) (online 1700000000600)
                    (online 1700000000700) "B" None useCart.initial one_bare_item))))
  = ["A"; "B"] /\
  map CartItem.quantity
    (useCart.cartItems
       (fst (useCart.updateCartItem (online 1700000000500) (online 1700000000600)
               (online 1700000000700) "1700000000000" (only_quantity 4)
               useCart.initial one_bare_item)))
  = [4].
Proof.
  assert (Hr : readable one_bare_item) by (vm_compute; discriminate).
  assert (HP : ~ In "B" (map CartItem.carId (persisted one_bare_item)))
    by (vm_compute; intros [H|[]]; discriminate).
  assert (Hin : In "1700000000000" (map CartItem._id (persisted one_bare_item)))
    by (vm_compute; now left).
  split; [exact Hr|]. split; [exact HP|]. split; [exact Hin|].
  split.
  - destruct (useCart_mutation_shows_store (online 1700000000500) (online 1700000000600)
                (online 1700000000700) "B" "1700000000000" None (only_quantity 4)
                useCart.initial one_bare_item Hr) as (Hadd & _ & _).
    destruct (Hadd HP) as (_ & _ & -> & _). reflexivity.
  - destruct (useCart_mutation_shows_store (online 1700000000500) (online 1700000000600)
                (online 1700000000700) "B" "1700000000000" None (only_quantity 4)
                useCart.initial one_bare_item Hr) as (_ & Hupd & _).
    destruct (Hupd Hin) as (_ & -> & _). reflexivity.
Defined.

Lemma quantity_fold (items : list CartItem.t) (start : number) :
  fold_left (fun count item => count + CartItem.quantity item) items start
  == start + total_of (map CartItem.quantity items).
Proof.
  revert start. induction items as [|item rest IH]; intros start; simpl.
  - ring.
  - rewrite IH. ring.
Qed.

Lemma total_of_app (l1 l2 : list number) :
  total_of (l1 ++ l2) == total_of l1 + total_of l2.
Proof.
  induction l1 as [|x rest IH]; simpl.
  - ring.
  - rewrite IH. ring.
Qed.

Lemma map_quantity_attachCar (w : World) (items : list CartItem.t) :
  map CartItem.quantity (map (ApiClient.attachCar w) items) = map CartItem.quantity items.
Proof.
  rewrite map_map. apply map_ext. apply attachCar_quantity.
Qed.

(** [getCartItemsCount()] follows the stored quantities: after the hook has
    added a product that was not in the cart, without options, the count is
    the sum of the quantities stored before plus 1; after [clearCart] it
    is 0. *)
Theorem useCart_count_follows_store
  (w0 w1 w2 : World) (P : string) (st : useCart.State) (ls : localStorage) :
  readable ls ->
  ~ In P (map CartItem.carId (persisted ls)) ->
  useCart.getCartItemsCount (snd (fst (useCart.addToCart w0 w1 w2 P None st ls)))
    == total_of (map CartItem.quantity (persisted ls)) + 1 /\
  useCart.getCartItemsCount
    (fst (useCart.clearCart (snd (fst (useCart.addToCart w0 w1 w2 P None st ls)))
            (snd (useCart.addToCart w0 w1 w2 P None st ls))))
    == 0.
Proof.
  intros Hr HP. split; [|reflexivity].
  unfold useCart.addToCart. rewrite addToCart_absent by assumption.
  destruct (loadCart_readable w1 w2 (useCart.setLoading true st)
              (Some (Serialized (map (ApiClient.attachCar w0) (persisted ls)
                                   ++ [spread_optional (defaultItem w0 P) None])%list)))
    as (amount & -> & _); [discriminate|].
  cbn [fst snd]. unfold useCart.getCartItemsCount.
  cbn [useCart.cartItems useCart.notify useCart.setLoading persisted].
  rewrite quantity_fold, map_quantity_attachCar, map_app, map_quantity_attachCar.
  rewrite total_of_app. simpl. ring.
Qed.

Lemma useCart_count_follows_store_witness :
  readable two_bare_items /\
  ~ In "C" (map CartItem.carId (persisted two_bare_items)) /\
  useCart.getCartItemsCount
    (snd (fst (useCart.addToCart (online 1700000000700) (online 1700000000800)
                 (online 1700000000900) "C" None useCart.initial two_bare_items)))
  == 3.
Proof.
  assert (Hr : readable two_bare_items) by (vm_compute; discriminate).
  assert (HP : ~ In "C" (map CartItem.carId (persisted two_bare_items)))
    by (vm_compute; intros [H|[H|[]]]; discriminate).
  split; [exact Hr|]. split; [exact HP|].
  rewrite (proj1 (useCart_count_follows_store (online 1700000000700) (online 1700000000800)
                    (online 1700000000900) "C" useCart.initial two_bare_items Hr HP)).
  reflexivity.
Defined.

(** * What the pages keep true of the stored cart *)

Lemma loadCart_store (w1 w2 : World) (st : useCart.State) (ls : localStorage) :
  snd (useCart.loadCart w1 w2 st ls) = ls.
Proof.
  unfold useCart.loadCart, ApiClient.getCartTotal, bind.
  rewrite !getCartItems_eq. destruct ls as [[items| |]|]; reflexivity.
Qed.

Section HookWrites.

Variables w0 w1 w2 : World.
Variable st : useCart.State.
Variable ls : localStorage.

Lemma useCart_addToCart_store (P : string) (options : option Partial.t) :
  snd (useCart.addToCart w0 w1 w2 P options st ls) = perform w0 (AddToCart P options) ls.
Proof.
  unfold useCart.addToCart. simpl perform. unfold stored_after.
  destruct (ApiClient.addToCart w0 P options ls) as [[newItem|e] ls1]; [|reflexivity].
  pose proof (loadCart_store w1 w2 (useCart.setLoading true st) ls1) as H.
  destruct (useCart.loadCart w1 w2 _ ls1) as [st1 ls2]. exact H.
Qed.

Lemma useCart_updateCartItem_store (itemId : string) (updates : Partial.t) :
  snd (useCart.updateCartItem w0 w1 w2 itemId updates st ls)
  = perform w0 (UpdateCartItem itemId updates) ls.
Proof.
  unfold useCart.updateCartItem. simpl perform. unfold stored_after.
  destruct (ApiClient.updateCartItem w0 itemId updates ls) as [[item|e] ls1]; [|reflexivity].
  pose proof (loadCart_store w1 w2 (useCart.setLoading true st) ls1) as H.
  destruct (useCart.loadCart w1 w2 _ ls1) as [st1 ls2]. exact H.
Qed.

Lemma useCart_removeFromCart_store (itemId : string) :
  snd (useCart.removeFromCart w0 w1 w2 itemId st ls) = perform w0 (RemoveFromCart itemId) ls.
Proof.
  unfold useCart.removeFromCart. simpl perform. unfold stored_after.
  destruct (ApiClient.removeFromCart w0 itemId ls) as [[u|e] ls1]; [|reflexivity].
  pose proof (loadCart_store w1 w2 (useCart.setLoading true st) ls1) as H.
  destruct (useCart.loadCart w1 w2 _ ls1) as [st1 ls2]. exact H.
Qed.

End HookWrites.

Lemma attachCar_userId (w : World) (item : CartItem.t) :
  CartItem.userId (ApiClient.attachCar w item) = CartItem.userId item.
Proof.
  unfold ApiClient.attachCar. now destruct (ApiClient.getCarById w _).
Qed.

Lemma well_formed_attachCar (w : World) (items : list CartItem.t) :
  Forall (fun item => 1 <= CartItem.quantity item /\ CartItem.userId item = "guest") items ->
  Forall (fun item => 1 <= CartItem.quantity item /\ CartItem.userId item = "guest")
    (map (ApiClient.attachCar w) items).
Proof.
  intros H. rewrite Forall_forall in *. intros x Hx.
  apply in_map_iff in Hx as (item & <- & Hitem).
  rewrite attachCar_quantity, attachCar_userId. now apply H.
Qed.

(** A call the pages make keeps the stored line items well formed. *)
Lemma perform_keeps_well_formed (w : World) (c : call) (ls : localStorage) :
  readable ls -> page_call c -> well_formed_lines ls -> well_formed_lines (perform w c ls).
Proof.
  unfold well_formed_lines. intros Hr Hc Hwf.
  pose proof (well_formed_attachCar w _ Hwf) as Hwf'.
  destruct c as [P options|itemId updates|itemId|]; simpl perform; unfold stored_after.
  - simpl in Hc. subst options.
    destruct (in_dec string_dec P (map CartItem.carId (persisted ls))) as [Hin|Hn].
    + now rewrite addToCart_present.
    + rewrite addToCart_absent by assumption. cbn [snd persisted].
      apply Forall_app. split; [exact Hwf'|].
      constructor; [|constructor]. simpl. split; [discriminate|reflexivity].
  - destruct Hc as (_ & Huser & Hq).
    destruct (in_dec string_dec itemId (map CartItem._id (persisted ls))) as [Hin|Hn].
    + destruct (updateCartItem_found w ls itemId updates Hr Hin)
        as (before & item & after & Hl & _ & _ & ->). cbn [snd persisted].
      rewrite Hl in Hwf'. apply Forall_app in Hwf' as [Hb Ha].
      inversion Ha as [|x l [Hx1 Hx2] Hafter]; subst.
      apply Forall_app. split; [exact Hb|]. constructor; [|exact Hafter].
      simpl. rewrite Huser. simpl. split; [|exact Hx2].
      destruct (Partial.quantity updates) as [q|] eqn:E; simpl; [now apply Hq|exact Hx1].
    + now rewrite updateCartItem_missing.
  - rewrite removeFromCart_readable by assumption. cbn [snd persisted].
    apply Forall_forall. intros x Hx. apply filter_In in Hx as [Hx _].
    rewrite Forall_forall in Hwf'. now apply Hwf'.
  - simpl. constructor.
Qed.

Lemma page_call_keeps_carId (c : call) : page_call c -> keeps_carId c.
Proof.
  destruct c as [P options|itemId updates|itemId|]; simpl; try tauto.
  intros ->. exact I.
Qed.

(** The invariant the pages keep, one call at a time. *)
Lemma page_call_invariant (w : World) (c : call) (ls : localStorage) :
  page_call c ->
  readable ls /\ one_line_per_product ls /\ well_formed_lines ls ->
  readable (perform w c ls) /\ one_line_per_product (perform w c ls) /\
  well_formed_lines (perform w c ls).
Proof.
  intros Hc (Hr & H1 & Hwf). split; [now apply perform_readable|]. split.
  - apply perform_keeps_one_line; auto using page_call_keeps_carId.
  - now apply perform_keeps_well_formed.
Qed.

(** The writes of [handleRemoveSelected]: nothing, or what one removal
    alone would have written. *)
Lemma handleRemoveSelected_storage_cases (finished : list (World * string))
  (ls : localStorage) :
  readable ls ->
  CartPage.handleRemoveSelected_storage finished ls = ls \/
  exists w itemId,
    In (w, itemId) finished /\
    CartPage.handleRemoveSelected_storage finished ls = perform w (RemoveFromCart itemId) ls.
Proof.
  intros Hr. unfold CartPage.handleRemoveSelected_storage.
  induction finished as [|[w itemId] rest IH] using rev_ind; [now left|].
  right. exists w, itemId. split; [apply in_or_app; right; now left|].
  rewrite fold_left_app. cbn [fold_left fst snd]. simpl perform. unfold stored_after.
  now rewrite removeFromCart_readable.
Qed.

(** Whatever is done on the three pages, in any order and whatever the
    catalog answers, the stored cart stays readable, holds at most one line
    item per product, and every line item has a quantity of at least 1 and
    the user ["guest"]. *)
Theorem pages_keep_cart_well_formed (ls : localStorage) :
  ui_reachable ls ->
  readable ls /\ one_line_per_product ls /\ well_formed_lines ls.
Proof.
  induction 1 as [ | w0 w1 w2 car hook ls _ IH | w0 w1 w2 page hook ls _ IH
                 | w0 w1 w2 itemId quantity hook ls _ IH
                 | w0 w1 w2 itemId financing hook ls _ IH
                 | w0 w1 w2 itemId notes hook ls _ IH
                 | w0 w1 w2 itemId hook ls _ IH
                 | finished ls _ IH
                 | hook ls _ IH ].
  - split; [discriminate|]. split; constructor.
  - unfold Catalog.handleAddToCart.
    pose proof (useCart_addToCart_store w0 w1 w2 hook ls (Car._id car) None) as E.
    destruct (useCart.addToCart w0 w1 w2 (Car._id car) None hook ls) as [[o hook'] ls'].
    cbn [snd] in *. rewrite E. now apply page_call_invariant.
  - unfold CarDetailPage.handleAddToCart.
    destruct (CarDetailPage.car page) as [data|]; [|exact IH].
    pose proof (useCart_addToCart_store w0 w1 w2 hook ls (Car._id data) None) as E.
    destruct (useCart.addToCart w0 w1 w2 (Car._id data) None hook ls) as [[o hook'] ls'].
    cbn [snd] in *. rewrite E. now apply page_call_invariant.
  - unfold CartPage.handleUpdateQuantity.
    destruct (Qle_bool 1 quantity) eqn:Hq; cbn [negb]; [|exact IH].
    rewrite useCart_updateCartItem_store. apply page_call_invariant; [|exact IH].
    simpl. repeat split. intros q Hsome. injection Hsome as <-.
    now apply Qle_bool_iff.
  - unfold CartPage.handleUpdateFinancing.
    rewrite useCart_updateCartItem_store. apply page_call_invariant; [|exact IH].
    simpl. repeat split. discriminate.
  - unfold CartPage.handleUpdateNotes.
    rewrite useCart_updateCartItem_store. apply page_call_invariant; [|exact IH].
    simpl. repeat split. discriminate.
  - rewrite useCart_removeFromCart_store. now apply page_call_invariant.
  - destruct (handleRemoveSelected_storage_cases finished ls (proj1 IH))
      as [->|(w & itemId & _ & ->)]; [exact IH|].
    now apply page_call_invariant.
  - simpl. split; [discriminate|]. split; constructor.
Qed.

Lemma pages_keep_cart_well_formed_witness :
  ui_reachable
    (snd (CartPage.handleUpdateQuantity (online 1700000000500) (online 1700000000600)
            (online 1700000000700) "1700000000000" 3 useCart.initial
            (snd (Catalog.handleAddToCart (online 1700000000000) (online 1700000000100)
                    (online 1700000000200) granta useCart.initial fresh)))) /\
  map CartItem.quantity
    (persisted
       (snd (CartPage.handleUpdateQuantity (online 1700000000500) (online 1700000000600)
               (online 1700000000700) "1700000000000" 3 useCart.initial
               (snd (Catalog.handleAddToCart (online 1700000000000) (online 1700000000100)
                       (online 1700000000200) granta useCart.initial fresh))))) = [3] /\
  well_formed_lines
    (snd (CartPage.handleUpdateQuantity (online 1700000000500) (online 1700000000600)
            (online 1700000000700) "1700000000000" 3 useCart.initial
            (snd (Catalog.handleAddToCart (online 1700000000000) (online 1700000000100)
                    (online 1700000000200) granta useCart.initial fresh)))).
Proof.
  assert (H : ui_reachable
                (snd (CartPage.handleUpdateQuantity (online 1700000000500)
                        (online 1700000000600) (online 1700000000700) "1700000000000" 3
                        useCart.initial
                        (snd (Catalog.handleAddToCart (online 1700000000000)
                                (online 1700000000100) (online 1700000000200) granta
                                useCart.initial fresh)))))
    by (apply ui_quantity, ui_catalog_add, ui_fresh).
  split; [exact H|]. split; [reflexivity|].
  exact (proj2 (proj2 (pages_keep_cart_well_formed _ H))).
Defined.

(** [handleRemoveSelected] starts all removals at once; each has read the
    store before any has written, and each writes the whole value.  The
    store it leaves is the one the removal that finished last wrote: only the
    item of that removal is gone, every other line item is still stored, the
    other selected ones included. *)
Theorem remove_selected_last_write_wins
  (earlier : list (World * string)) (w : World) (itemId : string) (ls : localStorage) :
  readable ls ->
  CartPage.handleRemoveSelected_storage (earlier ++ [(w, itemId)]) ls
    = stored_after (ApiClient.removeFromCart w itemId) ls /\
  (forall other,
     other <> itemId ->
     In other (map CartItem._id (persisted ls)) ->
     In other
       (map CartItem._id
          (persisted (CartPage.handleRemoveSelected_storage (earlier ++ [(w, itemId)]) ls)))).
Proof.
  intros Hr.
  assert (E : CartPage.handleRemoveSelected_storage (earlier ++ [(w, itemId)]) ls
              = stored_after (ApiClient.removeFromCart w itemId) ls).
  { unfold CartPage.handleRemoveSelected_storage, stored_after.
    rewrite fold_left_app. cbn [fold_left fst snd].
    now rewrite removeFromCart_readable. }
  split; [exact E|]. intros other Hne Hin. rewrite E.
  rewrite removeFromCart_once by assumption. cbn [persisted].
  rewrite map_id_attachCar, filter_map_id. apply filter_In. split; [exact Hin|].
  now apply negb_true_iff, String.eqb_neq.
Qed.

Lemma remove_selected_last_write_wins_witness :
  readable two_bare_items /\
  map CartItem._id (persisted two_bare_items) = ["1700000000000"; "1700000000500"] /\
  map CartItem._id
    (persisted
       (CartPage.handleRemoveSelected_storage
          ([(online 1700000000700, "1700000000000")]
             ++ [(online 1700000000700, "1700000000500")])
          two_bare_items))
  = ["1700000000000"].
Proof.
  assert (Hr : readable two_bare_items) by (vm_compute; discriminate).
  split; [exact Hr|]. split; [reflexivity|].
  rewrite (proj1 (remove_selected_last_write_wins
                    [(online 1700000000700, "1700000000000")]
                    (online 1700000000700) "1700000000500" two_bare_items Hr)).
  reflexivity.
Defined.

(** * The cart page *)

(** ** Selection *)

Lemma has_add (x y : string) (s : StringSet.t) :
  StringSet.has (StringSet.add x s) y = StringSet.has s y || (y =? x)%string.
Proof.
  unfold StringSet.add. destruct (StringSet.has s x) eqn:Hx.
  - destruct (y =? x)%string eqn:E; [|now rewrite orb_false_r].
    apply String.eqb_eq in E. subst y. now rewrite Hx.
  - unfold StringSet.has. rewrite existsb_app. simpl. now rewrite orb_false_r.
Qed.

Lemma has_delete (x y : string) (s : StringSet.t) :
  StringSet.has (StringSet.delete x s) y = StringSet.has s y && negb (y =? x)%string.
Proof.
  unfold StringSet.has, StringSet.delete. induction s as [|z rest IH]; simpl; [reflexivity|].
  destruct (z =? x)%string eqn:Ezx; simpl; rewrite IH.
  - apply String.eqb_eq in Ezx. subst z.
    destruct (y =? x)%string; simpl; [now rewrite andb_false_r | reflexivity].
  - destruct (y =? z)%string eqn:Eyz; simpl; [|reflexivity].
    apply String.eqb_eq in Eyz. subst z. now rewrite Ezx.
Qed.

Lemma has_from_onto (array : list string) (s : StringSet.t) (y : string) :
  StringSet.has (fold_left (fun s x => StringSet.add x s) array s) y
  = StringSet.has s y || existsb (String.eqb y) array.
Proof.
  revert s. induction array as [|x rest IH]; intros s; simpl.
  - now rewrite orb_false_r.
  - rewrite IH, has_add. now rewrite orb_assoc.
Qed.

Lemma has_from (array : list string) (y : string) :
  StringSet.has (StringSet.from array) y = existsb (String.eqb y) array.
Proof. unfold StringSet.from. now rewrite has_from_onto. Qed.

Lemma selected_total_is_sum (st : Cart.State) :
  Cart.calculateSelectedTotal st
  == total_of (map attachedAmount
                 (filter (fun item => Cart.has (Cart.selectedItems st) (CartItem._id item))
                    (Cart.cartItems st))).
Proof.
  unfold Cart.calculateSelectedTotal. rewrite reduce_total. ring.
Qed.

(** Checking "select all" makes the selected subtotal the sum over every
    line item of the cart, price times quantity of the attached product;
    unchecking it makes the subtotal, the discount amount and the final total
    0, whatever promo code is applied. *)
Theorem select_all_totals (st : Cart.State) :
  Cart.calculateSelectedTotal (CartPage.handleSelectAll true st)
    == total_of (map attachedAmount (Cart.cartItems st)) /\
  Cart.calculateSelectedTotal (CartPage.handleSelectAll false st) == 0 /\
  Cart.discountAmount (CartPage.handleSelectAll false st) == 0 /\
  Cart.finalTotal (CartPage.handleSelectAll false st) == 0.
Proof.
  assert (Hnone : Cart.calculateSelectedTotal (CartPage.handleSelectAll false st) == 0).
  { rewrite selected_total_is_sum.
    cbn [CartPage.handleSelectAll CartPage.setSelectedItems Cart.selectedItems
         Cart.cartItems].
    replace (filter (fun item => Cart.has [] (CartItem._id item)) (Cart.cartItems st))
      with (@nil CartItem.t); [reflexivity|].
    induction (Cart.cartItems st); simpl; auto. }
  split; [|split; [exact Hnone|split]].
  - rewrite selected_total_is_sum.
    cbn [CartPage.handleSelectAll CartPage.setSelectedItems Cart.selectedItems
         Cart.cartItems].
    rewrite filter_all_kept; [reflexivity|].
    intros item Hin. unfold Cart.has.
    change (existsb (String.eqb (CartItem._id item))
              (StringSet.from (map CartItem._id (Cart.cartItems st))))
      with (StringSet.has (StringSet.from (map CartItem._id (Cart.cartItems st)))
              (CartItem._id item)).
    rewrite has_from. apply existsb_exists. exists (CartItem._id item).
    split; [now apply in_map | apply String.eqb_refl].
  - unfold Cart.discountAmount, Cart.selectedTotal. rewrite Hnone. ring.
  - unfold Cart.finalTotal, Cart.discountAmount, Cart.selectedTotal. rewrite Hnone. ring.
Qed.

Lemma total_split (p q : CartItem.t -> bool) (items : list CartItem.t) :
  total_of (map attachedAmount (filter (fun x => p x && negb (q x)) items))
  + total_of (map attachedAmount (filter (fun x => p x && q x) items))
  == total_of (map attachedAmount (filter p items)).
Proof.
  induction items as [|x rest IH]; simpl; [ring|].
  destruct (p x), (q x); simpl; rewrite <- IH; ring.
Qed.

Lemma no_item_with_id (items : list CartItem.t) (id : string) :
  ~ In id (map CartItem._id items) ->
  filter (fun x => (CartItem._id x =? id)%string) items = [].
Proof.
  induction items as [|a rest IH]; simpl; intros Hn; [reflexivity|].
  destruct (CartItem._id a =? id)%string eqn:E.
  - apply String.eqb_eq in E. elim Hn. now left.
  - apply IH. intros H. apply Hn. now right.
Qed.

Lemma only_item_with_id (items : list CartItem.t) (item : CartItem.t) :
  NoDup (map CartItem._id items) ->
  In item items ->
  filter (fun x => (CartItem._id x =? CartItem._id item)%string) items = [item].
Proof.
  induction items as [|a rest IH]; simpl; intros Hnd Hin; [contradiction|].
  apply NoDup_cons_iff in Hnd as [Ha Hrest].
  destruct Hin as [<-|Hin].
  - rewrite String.eqb_refl. f_equal. now apply no_item_with_id.
  - destruct (CartItem._id a =? CartItem._id item)%string eqn:E.
    + apply String.eqb_eq in E. elim Ha. rewrite E. now apply in_map.
    + now apply IH.
Qed.

Lemma subtotal_without_item
  (items : list CartItem.t) (item : CartItem.t) (smaller larger : string -> bool) :
  NoDup (map CartItem._id items) ->
  In item items ->
  (forall y, smaller y = larger y && negb (y =? CartItem._id item)%string) ->
  larger (CartItem._id item) = true ->
  total_of (map attachedAmount (filter (fun x => smaller (CartItem._id x)) items))
  + attachedAmount item
  == total_of (map attachedAmount (filter (fun x => larger (CartItem._id x)) items)).
Proof.
  intros Hnd Hin Hsmaller Hlarger.
  pose proof (total_split (fun x => larger (CartItem._id x))
                (fun x => (CartItem._id x =? CartItem._id item)%string) items) as Hs.
  cbv beta in Hs.
  rewrite (filter_ext (fun x => smaller (CartItem._id x))
             (fun x => larger (CartItem._id x)
                       && negb (CartItem._id x =? CartItem._id item)%string))
    by (intros x; apply Hsmaller).
  rewrite <- Hs.
  rewrite (filter_ext_in
             (fun x => larger (CartItem._id x) && (CartItem._id x =? CartItem._id item)%string)
             (fun x => (CartItem._id x =? CartItem._id item)%string)).
  - rewrite (only_item_with_id _ _ Hnd Hin). simpl. ring.
  - intros x _. destruct (CartItem._id x =? CartItem._id item)%string eqn:E;
      [|now rewrite andb_false_r].
    apply String.eqb_eq in E. now rewrite E, Hlarger.
Qed.

(** With distinct item identifiers in the cart, unchecking a selected line
    item lowers the selected subtotal by exactly that item's price times
    quantity, and checking an unselected one raises it by as much; the other
    items do not matter. *)
Theorem checkbox_moves_subtotal_by_item (st : Cart.State) (item : CartItem.t) :
  NoDup (map CartItem._id (Cart.cartItems st)) ->
  In item (Cart.cartItems st) ->
  (Cart.has (Cart.selectedItems st) (CartItem._id item) = true ->
   Cart.calculateSelectedTotal (CartPage.handleSelectItem (CartItem._id item) false st)
   + attachedAmount item
   == Cart.calculateSelectedTotal st) /\
  (Cart.has (Cart.selectedItems st) (CartItem._id item) = false ->
   Cart.calculateSelectedTotal (CartPage.handleSelectItem (CartItem._id item) true st)
   == Cart.calculateSelectedTotal st + attachedAmount item).
Proof.
  intros Hnd Hin.
  split; intros Hsel; rewrite !selected_total_is_sum;
    cbn [CartPage.handleSelectItem CartPage.setSelectedItems Cart.selectedItems
         Cart.cartItems].
  - apply (subtotal_without_item (Cart.cartItems st) item
             (Cart.has (StringSet.delete (CartItem._id item) (Cart.selectedItems st)))
             (Cart.has (Cart.selectedItems st))); auto.
    intros y. apply has_delete.
  - symmetry.
    apply (subtotal_without_item (Cart.cartItems st) item
             (Cart.has (Cart.selectedItems st))
             (Cart.has (StringSet.add (CartItem._id item) (Cart.selectedItems st)))); auto.
    + intros y.
      change (Cart.has (StringSet.add (CartItem._id item) (Cart.selectedItems st)) y)
        with (StringSet.has (StringSet.add (CartItem._id item) (Cart.selectedItems st)) y).
      rewrite has_add.
      change (StringSet.has (Cart.selectedItems st) y)
        with (Cart.has (Cart.selectedItems st) y).
      destruct (y =? CartItem._id item)%string eqn:E; simpl.
      * apply String.eqb_eq in E. now rewrite E, Hsel.
      * now rewrite orb_false_r, andb_true_r.
    + change (StringSet.has (StringSet.add (CartItem._id item) (Cart.selectedItems st))
                (CartItem._id item) = true).
      rewrite has_add, String.eqb_refl. apply orb_true_r.
Qed.

Lemma checkbox_moves_subtotal_by_item_witness :
  NoDup (map CartItem._id (Cart.cartItems (Cart.initial (persisted two_grantas)))) /\
  (exists item,
     In item (Cart.cartItems (Cart.initial (persisted two_grantas))) /\
     Cart.has (Cart.selectedItems (Cart.initial (persisted two_grantas)))
       (CartItem._id item) = true /\
     Cart.calculateSelectedTotal
       (CartPage.handleSelectItem (CartItem._id item) false
          (Cart.initial (persisted two_grantas)))
     + attachedAmount item
     == 1000000).
Proof.
  assert (Hnd : NoDup (map CartItem._id
                         (Cart.cartItems (Cart.initial (persisted two_grantas)))))
    by (vm_compute; repeat constructor; intros []).
  split; [exact Hnd|].
  destruct (persisted two_grantas) as [|item rest] eqn:E; [discriminate E|].
  exists item.
  assert (Hin : In item (Cart.cartItems (Cart.initial (item :: rest)))) by now left.
  assert (Hsel : Cart.has (Cart.selectedItems (Cart.initial (item :: rest)))
                   (CartItem._id item) = true)
    by (simpl; now rewrite String.eqb_refl).
  split; [exact Hin|]. split; [exact Hsel|].
  rewrite (proj1 (checkbox_moves_subtotal_by_item (Cart.initial (item :: rest)) item
                    Hnd Hin) Hsel).
  rewrite <- E. reflexivity.
Defined.

(** ** Checkout *)



(** ** Promo codes, in general *)

Lemma lookup_validCodes (code : string) (d : number) :
  Cart.lookup code Cart.validCodes = Some d ->
  (code = "SAVE10" /\ d = 0.1) \/ (code = "FIRST15" /\ d = 0.15) \/
  (code = "PREMIUM20" /\ d = 0.2).
Proof.
  unfold Cart.validCodes. cbn [Cart.lookup].
  destruct ("SAVE10" =? code)%string eqn:E1.
  { apply String.eqb_eq in E1. intros H. injection H as <-. now left. }
  destruct ("FIRST15" =? code)%string eqn:E2.
  { apply String.eqb_eq in E2. intros H. injection H as <-. right. now left. }
  destruct ("PREMIUM20" =? code)%string eqn:E3; [|discriminate].
  apply String.eqb_eq in E3. intros H. injection H as <-. right. now right.
Qed.



(** A discount, once applied, cannot be taken back: whatever code is in the
    field, [handleApplyPromoCode] leaves a discount that is not 0 when it
    was not 0 before; the new discount is the old one or a fraction of the
    table. *)
Theorem promo_discount_never_cleared (st : Cart.State) :
  (Cart.promoDiscount (Cart.handleApplyPromoCode st) = Cart.promoDiscount st \/
   Cart.promoDiscount (Cart.handleApplyPromoCode st) = 0.1 \/
   Cart.promoDiscount (Cart.handleApplyPromoCode st) = 0.15 \/
   Cart.promoDiscount (Cart.handleApplyPromoCode st) = 0.2) /\
  (~ Cart.promoDiscount st == 0 ->
   ~ Cart.promoDiscount (Cart.handleApplyPromoCode st) == 0).
Proof.
  unfold Cart.handleApplyPromoCode.
  destruct (Cart.lookup (Cart.promoCode st) Cart.validCodes) as [d|] eqn:E.
  - apply lookup_validCodes in E as [[_ ->]|[[_ ->]|[_ ->]]]; cbn;
      (split; [tauto | intros _ H; discriminate H]).
  - cbn. split; [now left | tauto].
Qed.

Lemma promo_discount_never_cleared_witness :
  ~ Cart.promoDiscount
      (Cart.handleApplyPromoCode
         (Cart.setPromoCode "SAVE10" (Cart.initial (persisted two_grantas)))) == 0 /\
  ~ Cart.promoDiscount
      (Cart.handleApplyPromoCode
         (Cart.setPromoCode ""
            (Cart.handleApplyPromoCode
               (Cart.setPromoCode "SAVE10" (Cart.initial (persisted two_grantas)))))) == 0.
Proof.
  assert (H : ~ Cart.promoDiscount
                  (Cart.handleApplyPromoCode
                     (Cart.setPromoCode "SAVE10" (Cart.initial (persisted two_grantas))))
                == 0) by (intros H; discriminate H).
  split; [exact H|].
  exact (proj2 (promo_discount_never_cleared
                  (Cart.setPromoCode ""
                     (Cart.handleApplyPromoCode
                        (Cart.setPromoCode "SAVE10" (Cart.initial (persisted two_grantas))))))
           H).
Defined.

(** * The catalog page: favorites and the compare list *)

Lemma has_false_not_in (s : StringSet.t) (x : string) :
  StringSet.has s x = false -> ~ In x s.
Proof.
  unfold StringSet.has. intros H Hin.
  assert (Ht : existsb (String.eqb x) s = true)
    by (apply existsb_exists; exists x; split; [exact Hin | apply String.eqb_refl]).
  rewrite H in Ht. discriminate.
Qed.

Lemma add_NoDup (x : string) (s : StringSet.t) :
  NoDup s -> NoDup (StringSet.add x s).
Proof.
  intros H. unfold StringSet.add. destruct (StringSet.has s x) eqn:E; [exact H|].
  apply NoDup_snoc; [exact H | now apply has_false_not_in].
Qed.

Lemma delete_NoDup (x : string) (s : StringSet.t) :
  NoDup s -> NoDup (StringSet.delete x s).
Proof. intros H. unfold StringSet.delete. now apply NoDup_filter. Qed.

Lemma size_add (x : string) (s : StringSet.t) :
  (StringSet.size (StringSet.add x s) <= S (StringSet.size s))%nat.
Proof.
  unfold StringSet.add, StringSet.size. destruct (StringSet.has s x); [lia|].
  rewrite length_app. simpl. lia.
Qed.

Lemma size_delete (x : string) (s : StringSet.t) :
  (StringSet.size (StringSet.delete x s) <= StringSet.size s)%nat.
Proof. unfold StringSet.delete, StringSet.size. apply filter_length_le. Qed.

(** The compare list never grows beyond three cars: a toggle keeps a list of
    at most three at most three.  With three cars in the list, toggling a
    fourth one changes neither the list nor the stored value and shows the
    limit notice; toggling one of the three removes it. *)
Theorem compare_list_capped (carId : string) (st : Catalog.State) (sh : Catalog.Shelves) :
  (StringSet.size (Catalog.compareList st) <= 3)%nat ->
  (StringSet.size (Catalog.compareList (fst (Catalog.handleToggleCompare carId st sh)))
   <= 3)%nat /\
  (StringSet.size (Catalog.compareList st) = 3%nat ->
   StringSet.has (Catalog.compareList st) carId = false ->
   Catalog.handleToggleCompare carId st sh = (Catalog.notify Catalog.CompareLimit st, sh)) /\
  (StringSet.has (Catalog.compareList st) carId = true ->
   StringSet.has (Catalog.compareList (fst (Catalog.handleToggleCompare carId st sh))) carId
   = false).
Proof.
  intros Hsize. unfold Catalog.handleToggleCompare.
  destruct (StringSet.has (Catalog.compareList st) carId) eqn:Hhas.
  - cbn [fst Catalog.compareList Catalog.setCompareList].
    split; [|split].
    + pose proof (size_delete carId (Catalog.compareList st)). lia.
    + discriminate.
    + intros _. rewrite has_delete, String.eqb_refl. apply andb_false_r.
  - destruct (StringSet.size (Catalog.compareList st) <? 3)%nat eqn:Hlt.
    + cbn [fst Catalog.compareList Catalog.setCompareList].
      apply Nat.ltb_lt in Hlt. split; [|split].
      * pose proof (size_add carId (Catalog.compareList st)). lia.
      * intros H3. lia.
      * discriminate.
    + split; [exact Hsize|]. split; [reflexivity|discriminate].
Qed.

Lemma compare_list_capped_witness :
  (StringSet.size
     (Catalog.compareList
        {| Catalog.favorites := []; Catalog.compareList := ["A"; "B"; "C"];
           Catalog.toasts := [] |}) <= 3)%nat /\
  Catalog.handleToggleCompare "D"
    {| Catalog.favorites := []; Catalog.compareList := ["A"; "B"; "C"];
       Catalog.toasts := [] |}
    {| Catalog.favorites_key := None;
       Catalog.compare_key := Some (Catalog.SerializedIds ["A"; "B"; "C"]) |}
  = ({| Catalog.favorites := []; Catalog.compareList := ["A"; "B"; "C"];
        Catalog.toasts := [Catalog.CompareLimit] |},
     {| Catalog.favorites_key := None;
        Catalog.compare_key := Some (Catalog.SerializedIds ["A"; "B"; "C"]) |}).
Proof.
  assert (H : (StringSet.size
                 (Catalog.compareList
                    {| Catalog.favorites := []; Catalog.compareList := ["A"; "B"; "C"];
                       Catalog.toasts := [] |}) <= 3)%nat) by (simpl; lia).
  split; [exact H|].
  exact (proj1 (proj2 (compare_list_capped "D"
                         {| Catalog.favorites := []; Catalog.compareList := ["A"; "B"; "C"];
                            Catalog.toasts := [] |}
                         {| Catalog.favorites_key := None;
                            Catalog.compare_key :=
                              Some (Catalog.SerializedIds ["A"; "B"; "C"]) |} H))
           eq_refl eq_refl).
Defined.

(** [handleToggleFavorite] flips the membership of the car it is given and
    of no other: a second toggle of the same car restores every membership.
    It leaves the compare list and its stored value alone. *)
Theorem favorite_toggle_flips_one
  (carId other : string) (st : Catalog.State) (sh : Catalog.Shelves) :
  StringSet.has (Catalog.favorites (fst (Catalog.handleToggleFavorite carId st sh))) other
    = (if (other =? carId)%string then negb (StringSet.has (Catalog.favorites st) carId)
       else StringSet.has (Catalog.favorites st) other) /\
  StringSet.has
    (Catalog.favorites
       (fst (Catalog.handleToggleFavorite carId
               (fst (Catalog.handleToggleFavorite carId st sh))
               (snd (Catalog.handleToggleFavorite carId st sh))))) other
    = StringSet.has (Catalog.favorites st) other /\
  Catalog.compareList (fst (Catalog.handleToggleFavorite carId st sh))
    = Catalog.compareList st /\
  Catalog.compare_key (snd (Catalog.handleToggleFavorite carId st sh))
    = Catalog.compare_key sh.
Proof.
  assert (Hflip : forall st sh other,
            StringSet.has
              (Catalog.favorites (fst (Catalog.handleToggleFavorite carId st sh))) other
            = (if (other =? carId)%string
               then negb (StringSet.has (Catalog.favorites st) carId)
               else StringSet.has (Catalog.favorites st) other)).
  { intros st0 sh0 y. unfold Catalog.handleToggleFavorite.
    destruct (StringSet.has (Catalog.favorites st0) carId) eqn:Hhas;
      cbn [fst Catalog.favorites Catalog.setFavorites].
    - rewrite has_delete. destruct (y =? carId)%string eqn:E; simpl.
      + apply andb_false_r.
      + apply andb_true_r.
    - rewrite has_add. destruct (y =? carId)%string eqn:E; simpl.
      + apply orb_true_r.
      + apply orb_false_r. }
  split; [apply Hflip|]. split.
  - rewrite Hflip, (Hflip st sh carId), String.eqb_refl, negb_involutive.
    rewrite Hflip. destruct (other =? carId)%string eqn:E; [|reflexivity].
    apply String.eqb_eq in E. now subst other.
  - unfold Catalog.handleToggleFavorite.
    destruct (StringSet.has (Catalog.favorites st) carId); split; reflexivity.
Qed.

Lemma from_onto_NoDup (array : list string) (s : StringSet.t) :
  NoDup (s ++ array) -> fold_left (fun s x => StringSet.add x s) array s = (s ++ array)%list.
Proof.
  revert s. induction array as [|x rest IH]; intros s Hnd; simpl.
  - now rewrite app_nil_r.
  - assert (Hx : StringSet.has s x = false).
    { destruct (StringSet.has s x) eqn:E; [|reflexivity].
      unfold StringSet.has in E. apply existsb_exists in E as (y & Hy & Hxy).
      apply String.eqb_eq in Hxy. subst y.
      apply NoDup_remove_2 in Hnd. elim Hnd. apply in_or_app. now left. }
    unfold StringSet.add at 2. rewrite Hx.
    replace (s ++ x :: rest)%list with ((s ++ [x]) ++ rest)%list in *
      by (now rewrite <- app_assoc).
    now apply IH.
Qed.

Lemma from_NoDup (array : list string) : NoDup array -> StringSet.from array = array.
Proof. intros H. unfold StringSet.from. now rewrite from_onto_NoDup. Qed.

(** What the toggles save is what the page loads: after a favorite toggle
    and a compare toggle that was not refused, the effect that reads the two
    keys on a new page restores exactly the two sets the toggles left, in
    their order. *)
Theorem saved_sets_are_restored
  (favorite compared : string) (st : Catalog.State) (sh : Catalog.Shelves) :
  NoDup (Catalog.favorites st) ->
  NoDup (Catalog.compareList st) ->
  StringSet.has (Catalog.compareList st) compared = true
  \/ (StringSet.size (Catalog.compareList st) < 3)%nat ->
  Catalog.loadSaved Catalog.initial
    (snd (Catalog.handleToggleCompare compared
            (fst (Catalog.handleToggleFavorite favorite st sh))
            (snd (Catalog.handleToggleFavorite favorite st sh))))
  = Returned
      {| Catalog.favorites :=
           Catalog.favorites
             (fst (Catalog.handleToggleCompare compared
                     (fst (Catalog.handleToggleFavorite favorite st sh))
                     (snd (Catalog.handleToggleFavorite favorite st sh))));
         Catalog.compareList :=
           Catalog.compareList
             (fst (Catalog.handleToggleCompare compared
                     (fst (Catalog.handleToggleFavorite favorite st sh))
                     (snd (Catalog.handleToggleFavorite favorite st sh))));
         Catalog.toasts := [] |}.
Proof.
  intros Hf Hc Haccepted.
  unfold Catalog.handleToggleFavorite.
  destruct (StringSet.has (Catalog.favorites st) favorite) eqn:Hfav;
    cbn [fst snd]; unfold Catalog.handleToggleCompare;
    cbn [Catalog.compareList Catalog.setFavorites Catalog.notify];
    (destruct (StringSet.has (Catalog.compareList st) compared) eqn:Hcmp;
     [|destruct (StringSet.size (Catalog.compareList st) <? 3)%nat eqn:Hlt;
       [|exfalso; destruct Haccepted as [H|H];
         [discriminate | apply Nat.ltb_ge in Hlt; lia]]]);
    cbn [fst snd]; unfold Catalog.loadSaved;
    cbn [Catalog.favorites_key Catalog.compare_key Catalog.saveCompare
         Catalog.saveFavorites Catalog.parseSaved StringSet.elements];
    rewrite !from_NoDup
      by (apply delete_NoDup || apply add_NoDup; assumption);
    reflexivity.
Qed.

Lemma saved_sets_are_restored_witness :
  NoDup (Catalog.favorites Catalog.initial) /\
  NoDup (Catalog.compareList Catalog.initial) /\
  (StringSet.size (Catalog.compareList Catalog.initial) < 3)%nat /\
  Catalog.loadSaved Catalog.initial
    (snd (Catalog.handleToggleCompare "B"
            (fst (Catalog.handleToggleFavorite "A" Catalog.initial
                    {| Catalog.favorites_key := None; Catalog.compare_key := None |}))
            (snd (Catalog.handleToggleFavorite "A" Catalog.initial
                    {| Catalog.favorites_key := None; Catalog.compare_key := None |}))))
  = Returned {| Catalog.favorites := ["A"]; Catalog.compareList := ["B"];
                Catalog.toasts := [] |}.
Proof.
  assert (Hf : NoDup (Catalog.favorites Catalog.initial)) by constructor.
  assert (Hc : NoDup (Catalog.compareList Catalog.initial)) by constructor.
  assert (Hs : (StringSet.size (Catalog.compareList Catalog.initial) < 3)%nat)
    by (simpl; lia).
  split; [exact Hf|]. split; [exact Hc|]. split; [exact Hs|].
  rewrite (saved_sets_are_restored "A" "B" Catalog.initial
             {| Catalog.favorites_key := None; Catalog.compare_key := None |}
             Hf Hc (or_intror Hs)).
  reflexivity.
Defined.

(** * The product page: related cars *)

Lemma In_firstn {A : Type} (n : nat) (l : list A) (x : A) :
  In x (firstn n l) -> In x l.
Proof.
  revert l. induction n as [|n IH]; intros [|a l]; simpl; try tauto.
  intros [->|H]; [now left | right; now apply IH].
Qed.

(** When the car and the cars of its brand load, [loadCar] shows the car
    without an error, and as related cars at most four cars of the answer,
    none of them the car of the page.  When only the request for the brand
    fails, the car is shown all the same, without an error, and the related
    cars stay as they were. *)
Theorem loadCar_related_cars
  (s : CarDetailPage.Service) (id : string) (st : CarDetailPage.State) (data : Car.t) :
  id <> "" ->
  CarDetailPage.getCarById s id = inr data ->
  Car.brand data <> "" ->
  CarDetailPage.car (CarDetailPage.loadCar s (Some id) st) = Some data /\
  CarDetailPage.error (CarDetailPage.loadCar s (Some id) st) = None /\
  CarDetailPage.loading (CarDetailPage.loadCar s (Some id) st) = false /\
  (forall related,
     CarDetailPage.getCarsByBrand s (Car.brand data) = Some related ->
     (List.length (CarDetailPage.relatedCars (CarDetailPage.loadCar s (Some id) st)) <= 4)%nat /\
     (forall other,
        In other (CarDetailPage.relatedCars (CarDetailPage.loadCar s (Some id) st)) ->
        Car._id other <> id /\ In other related)) /\
  (CarDetailPage.getCarsByBrand s (Car.brand data) = None ->
   CarDetailPage.relatedCars (CarDetailPage.loadCar s (Some id) st)
   = CarDetailPage.relatedCars st).
Proof.
  intros Hid Hcar Hbrand. unfold CarDetailPage.loadCar.
  apply String.eqb_neq in Hid. apply String.eqb_neq in Hbrand.
  rewrite Hid, Hcar, Hbrand.
  destruct (CarDetailPage.getCarsByBrand s (Car.brand data)) as [related|];
    cbn -[firstn filter]; repeat (split; [reflexivity|]); split;
    try discriminate; try reflexivity.
  intros l H. injection H as <-. split; [apply firstn_le_length|].
  intros other Hin. apply In_firstn, filter_In in Hin as [Hin Hne].
  split; [|exact Hin]. now apply String.eqb_neq, negb_true_iff.
Qed.

Lemma loadCar_related_cars_witness :
  "A" <> "" /\
  Car.brand granta <> "" /\
  CarDetailPage.relatedCars
    (CarDetailPage.loadCar
       {| CarDetailPage.getCarById := fun _ => inr granta;
          CarDetailPage.getCarsByBrand :=
            fun _ => Some [vesta; granta; vesta; vesta; vesta; vesta] |}
       (Some "A") CarDetailPage.initial)
  = [vesta; vesta; vesta; vesta] /\
  (List.length
     (CarDetailPage.relatedCars
        (CarDetailPage.loadCar
           {| CarDetailPage.getCarById := fun _ => inr granta;
              CarDetailPage.getCarsByBrand :=
                fun _ => Some [vesta; granta; vesta; vesta; vesta; vesta] |}
           (Some "A") CarDetailPage.initial)) <= 4)%nat.
Proof.
  assert (Hid : "A" <> "") by discriminate.
  assert (Hb : Car.brand granta <> "") by discriminate.
  split; [exact Hid|]. split; [exact Hb|]. split; [reflexivity|].
  exact (proj1 (proj1 (proj2 (proj2 (proj2
           (loadCar_related_cars
              {| CarDetailPage.getCarById := fun _ => inr granta;
                 CarDetailPage.getCarsByBrand :=
                   fun _ => Some [vesta; granta; vesta; vesta; vesta; vesta] |}
              "A" CarDetailPage.initial granta Hid eq_refl Hb)))) _ eq_refl)).
Defined.

(** * The financing calculator, beyond the two examples *)


